(** * MinerX QRIS Service (main.py): a shallow embedding

    The service is a FastAPI application with one HTTP middleware
    ([secure_internal_api]) and three route handlers ([root], [create_qris],
    [check_payment_status]).  The handlers delegate to an external
    collaborator, [qris_processor], an instance of [QRISPayment].

    Conventions of the embedding:
    - a Python [str] is the list of its Unicode code points ([pystr]); header
      values, which Starlette decodes as latin-1, are such strings with code
      points below 256;
    - a Python value that can flow through the handlers is a [pyval];
    - a coroutine is a computation in the monad [M]: it threads the history
      of calls made to the collaborator and either returns or raises;
    - the outcome of a request is what the source returns or raises: an
      [HTTPException] carries its [status_code] and [detail].  How the
      framework renders an exception is not part of main.py. *)

From Stdlib Require Import List ZArith NArith Bool Lia.
From Stdlib Require Import Ascii String DecimalString.
Import ListNotations.

Local Open Scope Z_scope.
Set Warnings "-register-all".

(** ** Python strings *)

Definition pystr := list N.

(** A source literal, as the list of its code points. *)
Definition lit (s : string) : pystr :=
  map N_of_ascii (list_ascii_of_string s).

Fixpoint str_eqb (a b : pystr) : bool :=
  match a, b with
  | [], [] => true
  | x :: a', y :: b' => N.eqb x y && str_eqb a' b'
  | _, _ => false
  end.

(** [str.isascii()]: every code point is below 128. *)
Definition isascii (s : pystr) : bool :=
  forallb (fun c => N.ltb c 128) s.

(** [key.lower()] on the ASCII letters (all that a header name holds). *)
Definition lower_char (c : N) : N :=
  if (N.leb 65 c && N.leb c 90)%bool then (c + 32)%N else c.

Definition lower (s : pystr) : pystr := map lower_char s.

(** [s] occurs somewhere inside [t]. *)
Definition contains (t s : pystr) : Prop :=
  exists pre post, t = pre ++ s ++ post.

(** ** Exceptions and outcomes *)

(** A Python exception object, other than the framework's [HTTPException]:
    its class name, whether the class derives from [Exception] (the classes
    that derive from [BaseException] only are not caught by
    [except Exception]), and the text [str(e)] gives. *)
Record py_exception := {
  exc_type : pystr;
  derives_Exception : bool;
  exc_message : pystr
}.

Inductive exn :=
| HTTPException (status_code : Z) (detail : pystr)
| PyExc (e : py_exception).

Definition TypeError (msg : pystr) : exn :=
  PyExc {| exc_type := lit "TypeError"; derives_Exception := true;
           exc_message := msg |}.

Definition AttributeError (msg : pystr) : exn :=
  PyExc {| exc_type := lit "AttributeError"; derives_Exception := true;
           exc_message := msg |}.

Definition UnicodeDecodeError (msg : pystr) : exn :=
  PyExc {| exc_type := lit "UnicodeDecodeError"; derives_Exception := true;
           exc_message := msg |}.

(** [isinstance(e, Exception)]. *)
Definition is_Exception (e : exn) : bool :=
  match e with
  | HTTPException _ _ => true
  | PyExc p => derives_Exception p
  end.

Inductive result (A : Type) :=
| Return (a : A)
| Raise (e : exn).
Arguments Return {A} a.
Arguments Raise {A} e.

(** ** The collaborator's call history and the coroutine monad *)

Inductive call :=
| GenerateQr (amount : Z)
| CheckPayment (order_ref : pystr) (amount : Z).

Definition history := list call.

Definition M (A : Type) := history -> result A * history.

Definition ret {A} (a : A) : M A := fun h => (Return a, h).

Definition raise {A} (e : exn) : M A := fun h => (Raise e, h).

Definition bind {A B} (m : M A) (k : A -> M B) : M B :=
  fun h =>
    match m h with
    | (Return a, h') => k a h'
    | (Raise e, h') => (Raise e, h')
    end.

(** A pure step that may raise. *)
Definition lift {A} (r : result A) : M A := fun h => (r, h).

(** [try: body / except Exception as e: handler e]. *)
Definition try_except_Exception {A} (body : M A) (handler : exn -> M A) : M A :=
  fun h =>
    match body h with
    | (Return a, h') => (Return a, h')
    | (Raise e, h') =>
        if is_Exception e then handler e h' else (Raise e, h')
    end.

Declare Scope py_scope.
Delimit Scope py_scope with py.
Notation "x <- m ;; k" := (bind m (fun x => k))
  (at level 61, m at next level, right associativity) : py_scope.
Local Open Scope py_scope.

(** ** Python values *)

(** Raw bytes ([bytes], the contents of a [BytesIO]): 8-bit numbers. *)
Definition bytes := list N.

(** The bitmap object the collaborator hands back.  It belongs to the imaging
    library; the service uses one method of it,
    [save(buffered, format="PNG")], which either fills the buffer with the
    PNG encoding or raises. *)
Record Image := {
  image_class : pystr;
  save_PNG : result bytes
}.

(** The values the handlers may meet.  [PObject] stands for an object of any
    other class (a float, a list, a tuple, ...): the handlers can only test
    its truth value and find that it has neither [get] nor [save]. *)
Inductive pyval :=
| PNone
| PBool (b : bool)
| PInt (z : Z)
| PStr (s : pystr)
| PDict (items : list (pystr * pyval))
| PImage (img : Image)
| PObject (class_name : pystr) (truth : bool).

Definition type_name (v : pyval) : pystr :=
  match v with
  | PNone => lit "NoneType"
  | PBool _ => lit "bool"
  | PInt _ => lit "int"
  | PStr _ => lit "str"
  | PDict _ => lit "dict"
  | PImage img => image_class img
  | PObject cls _ => cls
  end.

Definition no_attribute (v : pyval) (attr : string) : exn :=
  AttributeError
    (lit "'" ++ type_name v ++ lit "' object has no attribute '"
       ++ lit attr ++ lit "'").

(** Truth value testing ([bool(v)], [not v], [if v]). *)
Definition truthy (v : pyval) : bool :=
  match v with
  | PNone => false
  | PBool b => b
  | PInt z => negb (z =? 0)
  | PStr [] => false
  | PStr (_ :: _) => true
  | PDict [] => false
  | PDict (_ :: _) => true
  | PImage _ => true
  | PObject _ truth => truth
  end.

(** [v == s] for a string literal [s]. *)
Definition eq_str (v : pyval) (s : pystr) : bool :=
  match v with
  | PStr t => str_eqb t s
  | _ => false
  end.

Fixpoint lookup {V} (key : pystr) (items : list (pystr * V)) : option V :=
  match items with
  | [] => None
  | (k, v) :: rest => if str_eqb k key then Some v else lookup key rest
  end.

(** [v.get(key, default)]: defined on dicts, an [AttributeError] elsewhere. *)
Definition get (v : pyval) (key : string) (default : pyval) : result pyval :=
  match v with
  | PDict items =>
      Return (match lookup (lit key) items with
              | Some x => x
              | None => default
              end)
  | _ => Raise (no_attribute v "get")
  end.

(** [qr_image.save(buffered, format="PNG")] then [buffered.getvalue()]. *)
Definition save (v : pyval) : result bytes :=
  match v with
  | PImage img => save_PNG img
  | _ => Raise (no_attribute v "save")
  end.

(** ** [hmac.compare_digest] *)

(** The constant-time loop of the interpreter ([_tscmp]): the number of
    rounds depends on the second argument only; a length mismatch presets
    the accumulator and compares the second argument with itself. *)
Definition tscmp (a b : pystr) : bool :=
  let same_len := Nat.eqb (List.length a) (List.length b) in
  let left := if same_len then a else b in
  let result := if same_len then 0%N else 1%N in
  N.eqb
    (fold_left (fun acc xy => N.lor acc (N.lxor (fst xy) (snd xy)))
               (combine left b) result)
    0%N.

(** [hmac.compare_digest(a, b)] where [a] is a [str] and [b] a [str] or
    [None]: two strings must both be ASCII; a string and [None] have no
    common comparison. *)
Definition compare_digest (a : pystr) (b : option pystr) : result bool :=
  match b with
  | Some s =>
      if isascii a && isascii s then Return (tscmp a s)
      else Raise (TypeError
             (lit "comparing strings with non-ASCII characters is not supported"))
  | None =>
      Raise (TypeError
        (lit "unsupported operand types(s) or combination of types: 'str' and 'NoneType'"))
  end.

(** ** [base64.b64encode] and [bytes.decode('utf-8')] *)

Definition b64_alphabet : list N :=
  lit "ABCDEFGHIJKLMNOPQRSTUVWXYZabcdefghijklmnopqrstuvwxyz0123456789+/".

Definition b64_pad : N := 61.

(** The character of a 6-bit group. *)
Definition b64_char (sextet : N) : N :=
  nth (N.to_nat (N.land sextet 63)) b64_alphabet b64_pad.

Fixpoint b64encode (data : bytes) : bytes :=
  match data with
  | [] => []
  | [a] =>
      let n := N.shiftl a 16 in
      [b64_char (N.shiftr n 18); b64_char (N.shiftr n 12); b64_pad; b64_pad]
  | [a; b] =>
      let n := N.lor (N.shiftl a 16) (N.shiftl b 8) in
      [b64_char (N.shiftr n 18); b64_char (N.shiftr n 12);
       b64_char (N.shiftr n 6); b64_pad]
  | a :: b :: c :: rest =>
      let n := N.lor (N.lor (N.shiftl a 16) (N.shiftl b 8)) c in
      b64_char (N.shiftr n 18) :: b64_char (N.shiftr n 12)
        :: b64_char (N.shiftr n 6) :: b64_char n :: b64encode rest
  end.

Definition is_cont (b : N) : bool := N.eqb (N.land b 192) 128.

Definition decode_error : exn :=
  UnicodeDecodeError (lit "'utf-8' codec can't decode bytes").

Definition cons_char (c : N) (r : result pystr) : result pystr :=
  match r with
  | Return s => Return (c :: s)
  | Raise e => Raise e
  end.

(** Strict UTF-8 decoding: shortest forms only, no surrogates, nothing above
    U+10FFFF. *)
Fixpoint decode_utf8 (bs : bytes) : result pystr :=
  match bs with
  | [] => Return []
  | b0 :: r0 =>
      if N.ltb b0 128 then cons_char b0 (decode_utf8 r0)
      else if N.leb 194 b0 && N.leb b0 223 then
        match r0 with
        | b1 :: r1 =>
            if is_cont b1
            then cons_char (N.lor (N.shiftl (N.land b0 31) 6) (N.land b1 63))
                           (decode_utf8 r1)
            else Raise decode_error
        | _ => Raise decode_error
        end
      else if N.leb 224 b0 && N.leb b0 239 then
        match r0 with
        | b1 :: b2 :: r2 =>
            let c := N.lor (N.lor (N.shiftl (N.land b0 15) 12)
                                  (N.shiftl (N.land b1 63) 6))
                           (N.land b2 63) in
            if is_cont b1 && is_cont b2 && N.leb 2048 c
               && negb (N.leb 55296 c && N.leb c 57343)
            then cons_char c (decode_utf8 r2)
            else Raise decode_error
        | _ => Raise decode_error
        end
      else if N.leb 240 b0 && N.leb b0 244 then
        match r0 with
        | b1 :: b2 :: b3 :: r3 =>
            let c := N.lor (N.lor (N.lor (N.shiftl (N.land b0 7) 18)
                                         (N.shiftl (N.land b1 63) 12))
                                  (N.shiftl (N.land b2 63) 6))
                           (N.land b3 63) in
            if is_cont b1 && is_cont b2 && is_cont b3
               && N.leb 65536 c && N.leb c 1114111
            then cons_char c (decode_utf8 r3)
            else Raise decode_error
        | _ => Raise decode_error
        end
      else Raise decode_error
  end.

(** ** Configuration, requests and the pydantic models *)

(** [Settings.INTERNAL_API_KEY = os.getenv("INTERNAL_API_KEY")]: a string,
    or [None] when the variable is unset. *)
Record Settings := {
  INTERNAL_API_KEY : option pystr
}.

(** The part of a Starlette [Request] the middleware reads.  The header list
    is the ASGI one: names in lower case, in arrival order. *)
Record Request := {
  method : pystr;
  url_path : pystr;
  headers : list (pystr * pystr)
}.

(** [request.headers.get(key)]: the key is lowered, the first field of that
    name wins, [None] when there is none. *)
Definition headers_get (hs : list (pystr * pystr)) (key : string)
  : option pystr :=
  lookup (lower (lit key)) hs.

Module CreateQrisRequest.
Record t := { amount : Z; order_ref : pystr }.
End CreateQrisRequest.

Module QrisResponse.
Record t := { order_ref : pystr; amount : Z; qr_image_base64 : pystr }.
End QrisResponse.

Module CheckStatusRequest.
Record t := { order_ref : pystr; amount : Z }.
End CheckStatusRequest.

Module StatusResponse.
Record t := { status : pystr }.
End StatusResponse.

(** ** The external collaborator *)

(** [QRISPayment]: what each of its two operations answers, given the calls
    it has served so far. *)
Record QRISPayment := {
  generate_qr_answer : history -> Z -> result pyval;
  check_payment_answer : history -> pystr -> Z -> result pyval
}.

Definition generate_qr (qp : QRISPayment) (amount : Z) : M pyval :=
  fun h => (generate_qr_answer qp h amount, h ++ [GenerateQr amount]).

Definition check_payment (qp : QRISPayment) (order_ref : pystr) (amount : Z)
  : M pyval :=
  fun h => (check_payment_answer qp h order_ref amount,
            h ++ [CheckPayment order_ref amount]).

(** ** The application *)

(** What the application is built from: the settings, the collaborator, and
    the framework's [HTTPException.__str__] (which [f"...{e}"] calls when the
    caught exception is an [HTTPException]). *)
Record App := {
  settings : Settings;
  qris_processor : QRISPayment;
  HTTPException_str : Z -> pystr -> pystr
}.

(** [str(e)]. *)
Definition str_exn (app : App) (e : exn) : pystr :=
  match e with
  | HTTPException c d => HTTPException_str app c d
  | PyExc p => exc_message p
  end.

Definition root : M (list (pystr * pystr)) :=
  ret [(lit "message", lit "MinerX QRIS Service is running")].

Definition protected_paths : list pystr :=
  [lit "/create-qris"; lit "/check-payment"].

(** [path in [...]]. *)
Definition path_in (path : pystr) (l : list pystr) : bool :=
  existsb (fun p => str_eqb path p) l.

(** The gate.  [not api_key] holds for an absent header ([None]) and for an
    empty value; [or] evaluates the comparison for the other values only. *)
Definition secure_internal_api {R} (app : App) (request : Request)
    (call_next : Request -> M R) : M R :=
  _ <- (if path_in (url_path request) protected_paths then
          let api_key := headers_get (headers request) "X-API-KEY" in
          denied <- match api_key with
                    | None => ret true
                    | Some [] => ret true
                    | Some (c :: k) =>
                        same <- lift (compare_digest (c :: k)
                                  (INTERNAL_API_KEY (settings app))) ;;
                        ret (negb same)
                    end ;;
          if denied
          then raise (HTTPException 403 (lit "Forbidden: Invalid API Key"))
          else ret tt
        else ret tt) ;;
  response <- call_next request ;;
  ret response.

Definition create_qris (app : App) (payload : CreateQrisRequest.t)
  : M QrisResponse.t :=
  try_except_Exception
    (result <- generate_qr (qris_processor app)
                 (CreateQrisRequest.amount payload) ;;
     qr_image <- lift (get result "qr_image" PNone) ;;
     if negb (truthy qr_image)
     then raise (HTTPException 500 (lit "Library QRIS gagal membuat gambar."))
     else
       buffered <- lift (save qr_image) ;;
       img_str <- lift (decode_utf8 (b64encode buffered)) ;;
       ret {| QrisResponse.order_ref := CreateQrisRequest.order_ref payload;
              QrisResponse.amount := CreateQrisRequest.amount payload;
              QrisResponse.qr_image_base64 :=
                lit "data:image/png;base64," ++ img_str |})
    (fun e =>
       raise (HTTPException 500
                (lit "Error saat generate QR: " ++ str_exn app e))).

Definition check_payment_status (app : App) (payload : CheckStatusRequest.t)
  : M StatusResponse.t :=
  try_except_Exception
    (payment_result <- check_payment (qris_processor app)
                         (CheckStatusRequest.order_ref payload)
                         (CheckStatusRequest.amount payload) ;;
     success <- lift (get payment_result "success" PNone) ;;
     paid <- (if truthy success then
                data <- lift (get payment_result "data" (PDict [])) ;;
                st <- lift (get data "status" PNone) ;;
                ret (eq_str st (lit "PAID"))
              else ret false) ;;
     let status := if paid then lit "PAID" else lit "PENDING" in
     ret {| StatusResponse.status := status |})
    (fun e =>
       raise (HTTPException 500
                (lit "Error saat memeriksa pembayaran: " ++ str_exn app e))).

(** ** Vocabulary of the statements *)

(** The request carries a key the gate accepts. *)
Definition has_valid_key (app : App) (request : Request) : Prop :=
  exists k, headers_get (headers request) "X-API-KEY" = Some k
            /\ k <> []
            /\ compare_digest k (INTERNAL_API_KEY (settings app)) = Return true.

(** [d.get(key)] on the items of a dict. *)
Definition field (items : list (pystr * pyval)) (key : string) : pyval :=
  match lookup (lit key) items with
  | Some x => x
  | None => PNone
  end.

(** The 'data' entry is absent or is itself a dict. *)
Definition data_is_dict_or_absent (items : list (pystr * pyval)) : Prop :=
  lookup (lit "data") items = None
  \/ exists d, lookup (lit "data") items = Some (PDict d).

(** [result.get('data', {}).get('status')] when that is defined. *)
Definition nested_status (items : list (pystr * pyval)) : pyval :=
  match lookup (lit "data") items with
  | Some (PDict d) => field d "status"
  | _ => PNone
  end.

(** The answer of the authorization failure. *)
Definition Forbidden : exn :=
  HTTPException 403 (lit "Forbidden: Invalid API Key").

(** What the gate decides for a request, read off [secure_internal_api]:
    let it through ([Return tt]) or end it with an exception. *)
Definition gate_verdict (app : App) (request : Request) : result unit :=
  if path_in (url_path request) protected_paths then
    match headers_get (headers request) "X-API-KEY" with
    | None => Raise Forbidden
    | Some [] => Raise Forbidden
    | Some (c :: k) =>
        match compare_digest (c :: k) (INTERNAL_API_KEY (settings app)) with
        | Return true => Return tt
        | Return false => Raise Forbidden
        | Raise e => Raise e
        end
    end
  else Return tt.

(** ** Concrete instances, for running the model *)

(** [str(n)] for an integer. *)
Definition str_of_int (z : Z) : pystr :=
  lit (NilZero.string_of_int (Z.to_int z)).

(** [HTTPException.__str__] of current Starlette:
    [f"{status_code}: {detail}"]. *)
Definition starlette_str (status_code : Z) (detail : pystr) : pystr :=
  str_of_int status_code ++ lit ": " ++ detail.

(** A collaborator that gives the same two answers whatever its past. *)
Definition fixed_processor (g c : result pyval) : QRISPayment :=
  {| generate_qr_answer := fun _ _ => g;
     check_payment_answer := fun _ _ _ => c |}.

Definition sample_app (secret : option pystr) (g c : result pyval) : App :=
  {| settings := {| INTERNAL_API_KEY := secret |};
     qris_processor := fixed_processor g c;
     HTTPException_str := starlette_str |}.

Definition post (path : string) (hs : list (pystr * pystr)) : Request :=
  {| method := lit "POST"; url_path := lit path; headers := hs |}.

Definition with_key (k : pystr) : list (pystr * pystr) :=
  [(lit "content-type", lit "application/json"); (lit "x-api-key", k)].

Definition sample_image : Image :=
  {| image_class := lit "Image"; save_PNG := Return [137; 80; 78; 71]%N |}.

Definition order_1 : CreateQrisRequest.t :=
  {| CreateQrisRequest.amount := 10000;
     CreateQrisRequest.order_ref := lit "ORD-1" |}.

Definition check_1 : CheckStatusRequest.t :=
  {| CheckStatusRequest.order_ref := lit "ORD-1";
     CheckStatusRequest.amount := 10000 |}.

(** Collaborator results used in the scenarios. *)
Definition paid_result : pyval :=
  PDict [(lit "success", PBool true);
         (lit "data", PDict [(lit "status", PStr (lit "PAID"))])].

Definition expired_result : pyval :=
  PDict [(lit "success", PBool true);
         (lit "data", PDict [(lit "status", PStr (lit "EXPIRED"))])].

Definition data_None_result : pyval :=
  PDict [(lit "success", PBool true); (lit "data", PNone)].

Definition failed_result : pyval :=
  PDict [(lit "success", PBool false); (lit "data", PNone)].

Definition success_yes_result : pyval :=
  PDict [(lit "success", PStr (lit "yes"));
         (lit "data", PDict [(lit "status", PStr (lit "PAID"))])].

Definition image_result : pyval :=
  PDict [(lit "qr_string", PStr (lit "00020101021226"));
         (lit "qr_image", PImage sample_image)].

Definition no_image_result : pyval :=
  PDict [(lit "qr_string", PStr (lit "00020101021226"))].

Definition timeout_error : exn :=
  PyExc {| exc_type := lit "ConnectionError"; derives_Exception := true;
           exc_message := lit "upstream timed out" |}.


(** ** Further vocabulary and instances *)

(** The request carries, as its X-API-KEY, the configured secret itself: a
    non-empty ASCII string. *)
Definition carries_the_secret (app : App) (request : Request) : Prop :=
  exists k, headers_get (headers request) "X-API-KEY" = Some k
            /\ INTERNAL_API_KEY (settings app) = Some k
            /\ k <> [] /\ isascii k = true.

(** Every element is an 8-bit number, as the elements of a [bytes] are. *)
Definition is_bytes (data : bytes) : Prop :=
  Forall (fun b => (b < 256)%N) data.

(** The 6-bit group a Base64 character stands for. *)
Definition b64_index (c : N) : option N :=
  if (N.leb 65 c && N.leb c 90)%bool then Some (c - 65)%N
  else if (N.leb 97 c && N.leb c 122)%bool then Some (c - 71)%N
  else if (N.leb 48 c && N.leb c 57)%bool then Some (c + 4)%N
  else if N.eqb c 43 then Some 62%N
  else if N.eqb c 47 then Some 63%N
  else None.

(** The receiving side: the decoder for padded Base64 text, four characters
    at a time; padding is accepted in the last group only. *)
Fixpoint b64decode (text : bytes) : option bytes :=
  match text with
  | [] => Some []
  | c1 :: c2 :: c3 :: c4 :: rest =>
      match b64_index c1, b64_index c2 with
      | Some i1, Some i2 =>
          let b1 := (i1 * 4 + i2 / 16)%N in
          if N.eqb c3 b64_pad then
            match rest with
            | [] => if N.eqb c4 b64_pad then Some [b1] else None
            | _ => None
            end
          else
            match b64_index c3 with
            | Some i3 =>
                let b2 := ((i2 mod 16) * 16 + i3 / 4)%N in
                if N.eqb c4 b64_pad then
                  match rest with
                  | [] => Some [b1; b2]
                  | _ => None
                  end
                else
                  match b64_index c4, b64decode rest with
                  | Some i4, Some tail =>
                      Some (b1 :: b2 :: ((i3 mod 4) * 64 + i4)%N :: tail)
                  | _, _ => None
                  end
            | None => None
            end
      | _, _ => None
      end
  | _ => None
  end.

(** The character RFC 4648 (section 4, table 1) assigns to a 6-bit value:
    A-Z for 0-25, a-z for 26-51, 0-9 for 52-61, then '+' and '/'. *)
Definition b64_symbol (i : N) : N :=
  if N.ltb i 26 then (i + 65)%N
  else if N.ltb i 52 then (i + 71)%N
  else if N.ltb i 62 then (i - 4)%N
  else if N.eqb i 62 then 43%N
  else 47%N.

(** Base64 as RFC 4648 words it, by quotients and remainders: each group of
    three bytes gives four 6-bit values, most significant first; a last
    group of one byte gives two characters and "==", of two bytes three
    characters and "=", the missing bits being zero. *)
Fixpoint rfc4648_encode (data : bytes) : bytes :=
  match data with
  | [] => []
  | [a] =>
      [b64_symbol (a / 4); b64_symbol ((a mod 4) * 16); 61; 61]%N
  | [a; b] =>
      [b64_symbol (a / 4); b64_symbol ((a mod 4) * 16 + b / 16);
       b64_symbol ((b mod 16) * 4); 61]%N
  | a :: b :: c :: rest =>
      (b64_symbol (a / 4) :: b64_symbol ((a mod 4) * 16 + b / 16)
         :: b64_symbol ((b mod 16) * 4 + c / 64) :: b64_symbol (c mod 64)
         :: rfc4648_encode rest)%N
  end.

(** A signal that does not derive from [Exception]. *)
Definition keyboard_interrupt : exn :=
  PyExc {| exc_type := lit "KeyboardInterrupt"; derives_Exception := false;
           exc_message := lit "" |}.

Definition broken_image : Image :=
  {| image_class := lit "Image";
     save_PNG := Raise (PyExc {| exc_type := lit "OSError";
                                 derives_Exception := true;
                                 exc_message := lit "encoder error -2" |}) |}.

Definition options (path : string) (hs : list (pystr * pystr)) : Request :=
  {| method := lit "OPTIONS"; url_path := lit path; headers := hs |}.

(** * Properties *)

(** ** Strings and the constant-time comparison *)

Lemma str_eqb_eq (a b : pystr) : str_eqb a b = true <-> a = b.
Proof.
  revert b; induction a as [|x a IH]; intros [|y b]; simpl;
    try (split; [discriminate | discriminate]); try tauto.
  rewrite andb_true_iff, N.eqb_eq, IH.
  split; [intros [-> ->]; reflexivity | intros E; inversion E; auto].
Qed.

Lemma str_eqb_refl (a : pystr) : str_eqb a a = true.
Proof. apply str_eqb_eq; reflexivity. Qed.

Lemma str_eqb_neq (a b : pystr) : str_eqb a b = false <-> a <> b.
Proof.
  rewrite <- str_eqb_eq. destruct (str_eqb a b); split; congruence.
Qed.

(** The accumulator of the comparison loop ends at zero exactly when it
    started at zero and every pair met was a pair of equal code points. *)
Lemma fold_lor_lxor_zero (l : list (N * N)) (acc : N) :
  fold_left (fun acc xy => N.lor acc (N.lxor (fst xy) (snd xy))) l acc = 0%N
  <-> acc = 0%N /\ Forall (fun xy => fst xy = snd xy) l.
Proof.
  revert acc; induction l as [|[x y] l IH]; intros acc; simpl.
  - split; [intros ->; auto | tauto].
  - rewrite IH, N.lor_eq_0_iff, N.lxor_eq_0_iff. split.
    + intros [[-> E] F]; auto.
    + intros [-> F]; inversion F; subst; auto.
Qed.

Lemma combine_same_eq (a b : pystr) :
  List.length a = List.length b ->
  Forall (fun xy : N * N => fst xy = snd xy) (combine a b) <-> a = b.
Proof.
  revert b; induction a as [|x a IH]; intros [|y b] L; simpl in *;
    try discriminate.
  - split; auto.
  - injection L as L. split.
    + intros F; inversion F; subst; simpl in *; subst.
      f_equal; apply IH; auto.
    + intros E; inversion E; subst. constructor; [reflexivity|].
      apply IH; auto.
Qed.

(** The loop decides equality of the two strings. *)
Lemma tscmp_eq (a b : pystr) : tscmp a b = true <-> a = b.
Proof.
  unfold tscmp. rewrite N.eqb_eq, fold_lor_lxor_zero.
  destruct (Nat.eqb (List.length a) (List.length b)) eqn:L.
  - apply Nat.eqb_eq in L. rewrite combine_same_eq by assumption. tauto.
  - apply Nat.eqb_neq in L. split; [intros [D _]; discriminate|].
    intros ->; exfalso; apply L; reflexivity.
Qed.

Lemma tscmp_refl (a : pystr) : tscmp a a = true.
Proof. apply tscmp_eq; reflexivity. Qed.

(** The comparison answers exactly when a secret is configured and both
    strings are ASCII; it then answers whether they are equal. *)
Lemma compare_digest_Return (a : pystr) (b : option pystr) (r : bool) :
  compare_digest a b = Return r <->
  exists s, b = Some s /\ isascii a = true /\ isascii s = true
            /\ r = tscmp a s.
Proof.
  unfold compare_digest; destruct b as [s|].
  - destruct (isascii a) eqn:Ea, (isascii s) eqn:Es; simpl; split;
      try discriminate;
      try (intros (s' & E & C1 & C2 & ->); injection E as <-;
           congruence).
    intros E; injection E as <-; eauto 6.
  - split; [discriminate | intros (s' & E & _); discriminate].
Qed.

Lemma compare_digest_true (a : pystr) (b : option pystr) :
  compare_digest a b = Return true <-> b = Some a /\ isascii a = true.
Proof.
  rewrite compare_digest_Return. split.
  - intros (s & -> & Ha & Hs & E). symmetry in E; apply tscmp_eq in E.
    subst; auto.
  - intros [-> Ha]. exists a. rewrite tscmp_refl; auto.
Qed.

(** ** Base64 text is ASCII and decodes to itself *)

(** Induction that follows [b64encode]: three bytes at a time. *)
Lemma list_ind3 {A} (P : list A -> Prop) :
  P [] -> (forall a, P [a]) -> (forall a b, P [a; b]) ->
  (forall a b c rest, P rest -> P (a :: b :: c :: rest)) ->
  forall l, P l.
Proof.
  intros H0 H1 H2 H3 l.
  assert (G : P l /\ (forall a, P (a :: l)) /\ (forall a b, P (a :: b :: l))).
  { induction l as [|x l (IH0 & IH1 & IH2)]; [auto|].
    split; [apply IH1|]. split; [intros a; apply IH2|].
    intros a b. apply H3. exact IH0. }
  apply G.
Qed.

Lemma nth_Forall {A} (P : A -> Prop) (l : list A) (d : A) (i : nat) :
  Forall P l -> P d -> P (nth i l d).
Proof.
  intros F D; revert i; induction F; intros [|i]; simpl; auto.
Qed.

Lemma b64_char_ascii (n : N) : N.ltb (b64_char n) 128 = true.
Proof.
  unfold b64_char.
  apply (nth_Forall (fun c => N.ltb c 128 = true)); [|reflexivity].
  apply Forall_forall. apply forallb_forall. reflexivity.
Qed.

Lemma b64encode_isascii (data : bytes) : isascii (b64encode data) = true.
Proof.
  induction data as [|a|a b|a b c rest IH] using list_ind3;
    cbn [b64encode isascii forallb]; rewrite ?b64_char_ascii; auto.
Qed.

(** Four characters for every started group of three bytes. *)
Lemma b64encode_length (data : bytes) :
  List.length (b64encode data) = (4 * ((List.length data + 2) / 3))%nat.
Proof.
  induction data as [|a|a b|a b c rest IH] using list_ind3;
    try reflexivity.
  cbn [b64encode List.length]. rewrite IH.
  replace (S (S (S (List.length rest))) + 2)%nat
    with (List.length rest + 2 + 1 * 3)%nat by lia.
  rewrite Nat.div_add by lia. lia.
Qed.

Lemma decode_utf8_ascii (bs : bytes) :
  isascii bs = true -> decode_utf8 bs = Return bs.
Proof.
  induction bs as [|b bs IH]; [reflexivity|].
  cbn [isascii forallb]. rewrite andb_true_iff. intros [Hb Hbs].
  cbn [decode_utf8]. rewrite Hb. rewrite (IH Hbs). reflexivity.
Qed.

(** [base64.b64encode(data).decode('utf-8')] never fails and is the encoded
    text itself. *)
Lemma decode_b64encode (data : bytes) :
  decode_utf8 (b64encode data) = Return (b64encode data).
Proof. apply decode_utf8_ascii, b64encode_isascii. Qed.

(** The test vectors of RFC 4648, section 10. *)
Example b64encode_rfc4648 :
  b64encode (lit "") = lit ""
  /\ b64encode (lit "f") = lit "Zg=="
  /\ b64encode (lit "fo") = lit "Zm8="
  /\ b64encode (lit "foo") = lit "Zm9v"
  /\ b64encode (lit "foob") = lit "Zm9vYg=="
  /\ b64encode (lit "fooba") = lit "Zm9vYmE="
  /\ b64encode (lit "foobar") = lit "Zm9vYmFy".
Proof. repeat split. Qed.

(** Strict decoding on text outside ASCII: accepted, and refused. *)
Example decode_utf8_samples :
  decode_utf8 [195; 169]%N = Return [233]%N
  /\ decode_utf8 [226; 130; 172]%N = Return [8364]%N
  /\ decode_utf8 [240; 159; 152; 128]%N = Return [128512]%N
  /\ decode_utf8 [192; 128]%N = Raise decode_error
  /\ decode_utf8 [237; 160; 128]%N = Raise decode_error
  /\ decode_utf8 [233]%N = Raise decode_error.
Proof. repeat split. Qed.


(** ** Base64 against its definition and its decoder *)

Lemma lor_shiftl_low (a b k : N) :
  (b < 2 ^ k)%N -> N.lor (N.shiftl a k) b = (a * 2 ^ k + b)%N.
Proof.
  intros Hb. rewrite <- N.shiftl_mul_pow2.
  rewrite N.add_nocarry_lxor, N.lxor_lor; auto.
  all: apply N.bits_inj_0; intros m; rewrite N.land_spec;
    destruct (N.lt_ge_cases m k) as [L|G].
  all: try (rewrite N.shiftl_spec_low by assumption; reflexivity).
  all: destruct (N.eq_dec b 0) as [->|NZ];
    [rewrite N.bits_0, andb_false_r; reflexivity|].
  all: rewrite (N.bits_above_log2 b m), andb_false_r; [reflexivity|].
  all: apply N.lt_le_trans with k; [|assumption];
    apply N.log2_lt_pow2; [lia | assumption].
Qed.

(** The 24-bit group of three bytes, as a number. *)
Lemma group_value (a b c : N) :
  (b < 256)%N -> (c < 256)%N ->
  N.lor (N.lor (N.shiftl a 16) (N.shiftl b 8)) c
  = (a * 65536 + b * 256 + c)%N.
Proof.
  intros Hb Hc.
  assert (E : N.lor (N.shiftl a 16) (N.shiftl b 8)
              = N.shiftl (a * 256 + b) 8).
  { rewrite (N.shiftl_mul_pow2 b), (N.shiftl_mul_pow2 (a * 256 + b)).
    rewrite lor_shiftl_low.
    - change (2 ^ 16)%N with 65536%N. change (2 ^ 8)%N with 256%N. lia.
    - change (2 ^ 16)%N with 65536%N. change (2 ^ 8)%N with 256%N. lia. }
  rewrite E, lor_shiftl_low by exact Hc.
  change (2 ^ 8)%N with 256%N. lia.
Qed.

Lemma land_63 (x : N) : N.land x 63 = (x mod 64)%N.
Proof. change 63%N with (N.ones 6). apply N.land_ones. Qed.

Lemma b64_alphabet_inverse (i : N) :
  (i < 64)%N ->
  b64_index (nth (N.to_nat i) b64_alphabet b64_pad) = Some i
  /\ N.eqb (nth (N.to_nat i) b64_alphabet b64_pad) b64_pad = false.
Proof.
  intros Hi.
  assert (All : forallb
                  (fun j =>
                     match b64_index (nth j b64_alphabet b64_pad) with
                     | Some k => N.eqb k (N.of_nat j)
                     | None => false
                     end
                     && negb (N.eqb (nth j b64_alphabet b64_pad) b64_pad))
                  (seq 0 64) = true) by reflexivity.
  rewrite forallb_forall in All.
  specialize (All (N.to_nat i)). rewrite in_seq in All.
  assert (Hn : (0 <= N.to_nat i < 0 + 64)%nat) by lia.
  apply All in Hn. apply andb_true_iff in Hn. destruct Hn as [Hk Hp].
  rewrite N2Nat.id in Hk.
  destruct (b64_index (nth (N.to_nat i) b64_alphabet b64_pad)) as [k|];
    [|discriminate].
  apply N.eqb_eq in Hk. subst k. split; [reflexivity|].
  apply negb_true_iff. exact Hp.
Qed.

Lemma b64_index_char (s : N) : b64_index (b64_char s) = Some (s mod 64)%N.
Proof.
  unfold b64_char. rewrite land_63.
  apply b64_alphabet_inverse. apply N.mod_lt. discriminate.
Qed.

Lemma b64_char_not_pad (s : N) : N.eqb (b64_char s) b64_pad = false.
Proof.
  unfold b64_char. rewrite land_63.
  apply b64_alphabet_inverse. apply N.mod_lt. discriminate.
Qed.

Ltac euclid :=
  rewrite ?N.shiftr_div_pow2;
  change (2 ^ 18)%N with 262144%N; change (2 ^ 12)%N with 4096%N;
  change (2 ^ 6)%N with 64%N;
  zify; Z.to_euclidean_division_equations; lia.

Lemma group_bytes (a b c : N) :
  (a < 256)%N -> (b < 256)%N -> (c < 256)%N ->
  let n := (a * 65536 + b * 256 + c)%N in
  ((N.shiftr n 18 mod 64) * 4 + (N.shiftr n 12 mod 64) / 16 = a)%N
  /\ (((N.shiftr n 12 mod 64) mod 16) * 16 + (N.shiftr n 6 mod 64) / 4
      = b)%N
  /\ (((N.shiftr n 6 mod 64) mod 4) * 64 + n mod 64 = c)%N.
Proof. intros Ha Hb Hc n. subst n. repeat split; euclid. Qed.

Lemma b64decode_b64encode (data : bytes) :
  is_bytes data -> b64decode (b64encode data) = Some data.
Proof.
  unfold is_bytes.
  induction data as [|a|a b|a b c rest IH] using list_ind3; intros F.
  - reflexivity.
  - inversion F as [|? ? Ha _]; subst.
    cbn [b64encode b64decode].
    rewrite !b64_index_char, N.eqb_refl.
    replace (N.shiftl a 16) with (a * 65536 + 0 * 256 + 0)%N
      by (rewrite N.shiftl_mul_pow2; change (2 ^ 16)%N with 65536%N; lia).
    destruct (group_bytes a 0 0 Ha) as (E1 & _); [lia | lia |].
    cbv zeta in E1. rewrite E1. reflexivity.
  - inversion F as [|? ? Ha F1]; subst.
    inversion F1 as [|? ? Hb _]; subst.
    cbn [b64encode b64decode].
    rewrite !b64_index_char, b64_char_not_pad, N.eqb_refl.
    replace (N.lor (N.shiftl a 16) (N.shiftl b 8))
      with (a * 65536 + b * 256 + 0)%N
      by (rewrite <- (group_value a b 0) by lia;
          rewrite N.lor_0_r; reflexivity).
    destruct (group_bytes a b 0 Ha Hb) as (E1 & E2 & _); [lia|].
    cbv zeta in E1, E2. rewrite E1, E2. reflexivity.
  - inversion F as [|? ? Ha F1]; subst.
    inversion F1 as [|? ? Hb F2]; subst.
    inversion F2 as [|? ? Hc F3]; subst.
    cbn [b64encode b64decode].
    rewrite !b64_index_char, !b64_char_not_pad, (IH F3).
    rewrite group_value by assumption.
    destruct (group_bytes a b c Ha Hb Hc) as (E1 & E2 & E3).
    cbv zeta in E1, E2, E3. rewrite E1, E2, E3. reflexivity.
Qed.

Lemma b64_alphabet_symbol (i : N) :
  (i < 64)%N -> nth (N.to_nat i) b64_alphabet b64_pad = b64_symbol i.
Proof.
  intros Hi.
  assert (All : forallb
                  (fun j => N.eqb (nth j b64_alphabet b64_pad)
                                  (b64_symbol (N.of_nat j)))
                  (seq 0 64) = true) by reflexivity.
  rewrite forallb_forall in All.
  specialize (All (N.to_nat i)). rewrite in_seq, N2Nat.id in All.
  apply N.eqb_eq. apply All. lia.
Qed.

Lemma b64_char_symbol (s : N) : b64_char s = b64_symbol (s mod 64)%N.
Proof.
  unfold b64_char. rewrite land_63.
  apply b64_alphabet_symbol. apply N.mod_lt. discriminate.
Qed.

Lemma group_sextets (a b c : N) :
  (a < 256)%N -> (b < 256)%N -> (c < 256)%N ->
  let n := (a * 65536 + b * 256 + c)%N in
  (N.shiftr n 18 mod 64 = a / 4)%N
  /\ (N.shiftr n 12 mod 64 = (a mod 4) * 16 + b / 16)%N
  /\ (N.shiftr n 6 mod 64 = (b mod 16) * 4 + c / 64)%N
  /\ (n mod 64 = c mod 64)%N.
Proof. intros Ha Hb Hc n. subst n. repeat split; euclid. Qed.

(** On bytes, the encoder of the model is the encoding of the RFC. *)
Lemma b64encode_is_rfc4648 (data : bytes) :
  is_bytes data -> b64encode data = rfc4648_encode data.
Proof.
  unfold is_bytes.
  induction data as [|a|a b|a b c rest IH] using list_ind3; intros F.
  - reflexivity.
  - inversion F as [|? ? Ha _]; subst.
    cbn [b64encode rfc4648_encode]. rewrite !b64_char_symbol.
    replace (N.shiftl a 16) with (a * 65536 + 0 * 256 + 0)%N
      by (rewrite N.shiftl_mul_pow2; change (2 ^ 16)%N with 65536%N; lia).
    destruct (group_sextets a 0 0 Ha) as (E1 & E2 & _ & _); [lia | lia |].
    cbv zeta in E1, E2. rewrite E1, E2.
    change (0 / 16)%N with 0%N. rewrite N.add_0_r. reflexivity.
  - inversion F as [|? ? Ha F1]; subst.
    inversion F1 as [|? ? Hb _]; subst.
    cbn [b64encode rfc4648_encode]. rewrite !b64_char_symbol.
    replace (N.lor (N.shiftl a 16) (N.shiftl b 8))
      with (a * 65536 + b * 256 + 0)%N
      by (rewrite <- (group_value a b 0) by lia;
          rewrite N.lor_0_r; reflexivity).
    destruct (group_sextets a b 0 Ha Hb) as (E1 & E2 & E3 & _); [lia|].
    cbv zeta in E1, E2, E3. rewrite E1, E2, E3.
    change (0 / 64)%N with 0%N. rewrite N.add_0_r. reflexivity.
  - inversion F as [|? ? Ha F1]; subst.
    inversion F1 as [|? ? Hb F2]; subst.
    inversion F2 as [|? ? Hc F3]; subst.
    cbn [b64encode rfc4648_encode]. rewrite !b64_char_symbol, (IH F3).
    rewrite group_value by assumption.
    destruct (group_sextets a b c Ha Hb Hc) as (E1 & E2 & E3 & E4).
    cbv zeta in E1, E2, E3, E4. rewrite E1, E2, E3, E4. reflexivity.
Qed.

(** ** The authentication gate *)

Lemma bind_ret_r {A} (m : M A) (h : history) :
  (x <- m ;; ret x) h = m h.
Proof. unfold bind, ret. destruct (m h) as [[a|e] h']; reflexivity. Qed.

(** The middleware does what its verdict says: on [Return tt] it is the
    downstream handler, otherwise it raises without running anything and
    leaves the collaborator's history as it was. *)
Lemma secure_internal_api_verdict {R} (app : App) (request : Request)
    (call_next : Request -> M R) (h : history) :
  secure_internal_api app request call_next h =
  match gate_verdict app request with
  | Return _ => call_next request h
  | Raise e => (Raise e, h)
  end.
Proof.
  unfold secure_internal_api, gate_verdict.
  unfold bind at 1.
  destruct (path_in (url_path request) protected_paths).
  - destruct (headers_get (headers request) "X-API-KEY") as [[|c k]|];
      try reflexivity.
    unfold bind at 2. unfold bind at 2. unfold lift.
    destruct (compare_digest (c :: k) (INTERNAL_API_KEY (settings app)))
      as [[|]|e]; try reflexivity.
    cbn [ret negb]. apply bind_ret_r.
  - cbn [ret]. apply bind_ret_r.
Qed.

Lemma path_in_protected (path : pystr) :
  path_in path protected_paths = true <->
  path = lit "/create-qris" \/ path = lit "/check-payment".
Proof.
  unfold path_in, protected_paths. cbn [existsb].
  rewrite !orb_true_iff, !str_eqb_eq. intuition discriminate.
Qed.

Lemma gate_bypass (app : App) (request : Request) :
  path_in (url_path request) protected_paths = false ->
  gate_verdict app request = Return tt.
Proof. unfold gate_verdict. intros ->. reflexivity. Qed.

Lemma gate_valid_key (app : App) (request : Request) :
  has_valid_key app request -> gate_verdict app request = Return tt.
Proof.
  intros (k & Hk & Hne & Hc). unfold gate_verdict.
  destruct (path_in (url_path request) protected_paths); [|reflexivity].
  rewrite Hk. destruct k as [|c k]; [congruence|]. rewrite Hc. reflexivity.
Qed.

(** A request with a valid key reaches its handler unchanged. *)
Lemma gate_pass {R} (app : App) (request : Request)
    (call_next : Request -> M R) (h : history) :
  has_valid_key app request ->
  secure_internal_api app request call_next h = call_next request h.
Proof.
  intros V. rewrite secure_internal_api_verdict, (gate_valid_key _ _ V).
  reflexivity.
Qed.

(** Between ASCII strings the gate is clean: a key that differs from the
    secret is answered 403. *)
Lemma gate_rejects_ascii_mismatch {R} (app : App) (request : Request)
    (call_next : Request -> M R) (h : history) (k s : pystr) :
  path_in (url_path request) protected_paths = true ->
  headers_get (headers request) "X-API-KEY" = Some k ->
  INTERNAL_API_KEY (settings app) = Some s ->
  isascii k = true -> isascii s = true -> k <> s ->
  secure_internal_api app request call_next h = (Raise Forbidden, h).
Proof.
  intros P Hk Hs Ak As D. rewrite secure_internal_api_verdict.
  unfold gate_verdict. rewrite P, Hk, Hs.
  destruct k as [|c k]; [reflexivity|].
  unfold compare_digest. rewrite Ak, As. cbn [andb].
  destruct (tscmp (c :: k) s) eqn:T; [|reflexivity].
  apply tscmp_eq in T. contradiction.
Qed.

(** C7.  The gate is entered for exactly the two paths "/create-qris" and
    "/check-payment", matched by equality of the path string: on those a
    request without the header is refused; on every other path the
    middleware is the downstream handler, whatever the headers and the
    configured secret; in particular the root route answers its fixed
    liveness message without any X-API-KEY header. *)
Theorem gate_guards_exactly_two_paths :
  (forall path,
      path_in path protected_paths = true <->
      path = lit "/create-qris" \/ path = lit "/check-payment")
  /\ (forall R app request (call_next : Request -> M R) h,
         (url_path request = lit "/create-qris"
          \/ url_path request = lit "/check-payment") ->
         headers_get (headers request) "X-API-KEY" = None ->
         secure_internal_api app request call_next h = (Raise Forbidden, h))
  /\ (forall R app request (call_next : Request -> M R) h,
         url_path request <> lit "/create-qris" ->
         url_path request <> lit "/check-payment" ->
         secure_internal_api app request call_next h = call_next request h)
  /\ (forall app h,
         secure_internal_api app
           {| method := lit "GET"; url_path := lit "/"; headers := [] |}
           (fun _ => root) h
         = (Return [(lit "message", lit "MinerX QRIS Service is running")],
            h)).
Proof.
  split; [exact path_in_protected|]. split; [|split].
  - intros R app request call_next h P K.
    apply path_in_protected in P.
    rewrite secure_internal_api_verdict. unfold gate_verdict.
    rewrite P, K. reflexivity.
  - intros R app request call_next h N1 N2.
    rewrite secure_internal_api_verdict, gate_bypass; [reflexivity|].
    destruct (path_in (url_path request) protected_paths) eqn:P;
      [|reflexivity].
    apply path_in_protected in P. tauto.
  - intros app h. rewrite secure_internal_api_verdict. reflexivity.
Qed.

(** C9.  On a protected path a request whose X-API-KEY value is the empty
    string is refused with 403 whatever the configured secret, the empty
    secret included: the emptiness test comes first, so the comparison,
    which would find the two empty strings equal, is never evaluated. *)
Theorem empty_key_is_refused :
  (forall R app request (call_next : Request -> M R) h,
      path_in (url_path request) protected_paths = true ->
      headers_get (headers request) "X-API-KEY" = Some [] ->
      secure_internal_api app request call_next h = (Raise Forbidden, h))
  /\ compare_digest [] (Some []) = Return true.
Proof.
  split; [|reflexivity].
  intros R app request call_next h P K.
  rewrite secure_internal_api_verdict. unfold gate_verdict.
  rewrite P, K. reflexivity.
Qed.

(** C10.  The comparison of the gate answers only when a secret is
    configured and both it and the supplied key are ASCII.  Otherwise, for
    a non-empty key on a protected path (a key with a character outside
    ASCII, or any key when the secret is [None]), the middleware ends in the
    [TypeError] of [hmac.compare_digest], not in the 403 refusal. *)
Theorem comparison_raises_TypeError_outside_ascii :
  (forall key secret,
      (exists b, compare_digest key secret = Return b) <->
      (exists s, secret = Some s /\ isascii key = true /\ isascii s = true))
  /\ (forall R app request (call_next : Request -> M R) h key,
         path_in (url_path request) protected_paths = true ->
         headers_get (headers request) "X-API-KEY" = Some key ->
         key <> [] ->
         isascii key = false \/ INTERNAL_API_KEY (settings app) = None ->
         exists msg,
           secure_internal_api app request call_next h
           = (Raise (TypeError msg), h)
           /\ TypeError msg <> Forbidden).
Proof.
  split.
  - intros key secret. split.
    + intros [b Hb]. apply compare_digest_Return in Hb.
      destruct Hb as (s & E & Ha & Hs & _). eauto.
    + intros (s & E & Ha & Hs). exists (tscmp key s).
      apply compare_digest_Return. eauto 6.
  - intros R app request call_next h key P K Hne Bad.
    rewrite secure_internal_api_verdict. unfold gate_verdict.
    rewrite P, K. destruct key as [|c k]; [congruence|].
    unfold compare_digest.
    destruct (INTERNAL_API_KEY (settings app)) as [s|].
    + destruct Bad as [Bad|Bad]; [|discriminate]. rewrite Bad. cbn [andb].
      eexists; split; [reflexivity | discriminate].
    + eexists; split; [reflexivity | discriminate].
Qed.

(** C2.  When the internal secret is not set ([os.getenv] gave [None]), the
    comparison never yields a match, and no request to a protected path gets
    past the gate, whatever X-API-KEY it carries or omits: the middleware
    raises (the 403 refusal for an absent or empty key, the [TypeError] of
    the comparison for any other key) without running the handler, and the
    collaborator's history is untouched. *)
Theorem absent_secret_locks_out :
  forall R app request (call_next : Request -> M R) h,
    INTERNAL_API_KEY (settings app) = None ->
    path_in (url_path request) protected_paths = true ->
    (forall key, compare_digest key None <> Return true)
    /\ exists e,
        secure_internal_api app request call_next h = (Raise e, h)
        /\ (e = Forbidden \/ exists msg, e = TypeError msg).
Proof.
  intros R app request call_next h S P. split; [discriminate|].
  rewrite secure_internal_api_verdict. unfold gate_verdict.
  rewrite P, S.
  destruct (headers_get (headers request) "X-API-KEY") as [[|c k]|];
    eauto. cbn [compare_digest]. eauto.
Qed.

(** C3, at a failing request: POST /create-qris with the header
    [X-API-KEY: é] (one character outside ASCII) against the configured
    secret "s3cret".  The key does not match, the handler is not run, but
    the middleware raises the [TypeError] of the comparison and not the 403
    refusal. *)
Theorem non_ascii_key_gets_TypeError_not_403 :
  forall R g c (call_next : Request -> M R) h,
    secure_internal_api (sample_app (Some (lit "s3cret")) g c)
      (post "/create-qris" (with_key [233%N])) call_next h
    = (Raise (TypeError
         (lit "comparing strings with non-ASCII characters is not supported")),
       h)
    /\ [233%N] <> lit "s3cret"
    /\ fst (secure_internal_api (sample_app (Some (lit "s3cret")) g c)
              (post "/create-qris" (with_key [233%N])) call_next h)
       <> Raise Forbidden.
Proof.
  intros R g c call_next h.
  rewrite secure_internal_api_verdict.
  cbv [gate_verdict]. split; [reflexivity|]. split; discriminate.
Qed.

(** ** The generate-QR handler *)

Lemma get_dict (items : list (pystr * pyval)) (key : string) :
  get (PDict items) key PNone = Return (field items key).
Proof. reflexivity. Qed.

(** Every [AttributeError] the model raises is caught by
    [except Exception]. *)
Lemma get_Raise_is_Exception (v : pyval) (key : string) (d : pyval) (e : exn) :
  get v key d = Raise e -> is_Exception e = true.
Proof. destruct v; simpl; intros E; inversion E; reflexivity. Qed.

Ltac run_handler :=
  unfold create_qris, check_payment_status, try_except_Exception,
    generate_qr, check_payment;
  unfold bind, lift, ret, raise.

(** The collaborator's operation raises: 500 with the text of the
    exception. *)
Lemma create_qris_collaborator_raises (app : App)
    (payload : CreateQrisRequest.t) (h : history) (e : exn) :
  generate_qr_answer (qris_processor app) h (CreateQrisRequest.amount payload)
    = Raise e ->
  is_Exception e = true ->
  create_qris app payload h
  = (Raise (HTTPException 500
              (lit "Error saat generate QR: " ++ str_exn app e)),
     h ++ [GenerateQr (CreateQrisRequest.amount payload)]).
Proof. intros A E. run_handler. rewrite A, E. reflexivity. Qed.

(** No image in the result: the handler's own 500 is raised inside the
    [try], caught by its [except Exception], and raised again as a 500. *)
Lemma create_qris_no_image (app : App) (payload : CreateQrisRequest.t)
    (h : history) (items : list (pystr * pyval)) :
  generate_qr_answer (qris_processor app) h (CreateQrisRequest.amount payload)
    = Return (PDict items) ->
  truthy (field items "qr_image") = false ->
  create_qris app payload h
  = (Raise (HTTPException 500
              (lit "Error saat generate QR: "
                 ++ HTTPException_str app 500
                      (lit "Library QRIS gagal membuat gambar."))),
     h ++ [GenerateQr (CreateQrisRequest.amount payload)]).
Proof.
  intros A F. run_handler. rewrite A, get_dict, F. reflexivity.
Qed.

(** An image that saves as PNG: the handler returns. *)
Lemma create_qris_success (app : App) (payload : CreateQrisRequest.t)
    (h : history) (items : list (pystr * pyval)) (img : Image) (png : bytes) :
  generate_qr_answer (qris_processor app) h (CreateQrisRequest.amount payload)
    = Return (PDict items) ->
  field items "qr_image" = PImage img ->
  save_PNG img = Return png ->
  create_qris app payload h
  = (Return
       {| QrisResponse.order_ref := CreateQrisRequest.order_ref payload;
          QrisResponse.amount := CreateQrisRequest.amount payload;
          QrisResponse.qr_image_base64 :=
            lit "data:image/png;base64," ++ b64encode png |},
     h ++ [GenerateQr (CreateQrisRequest.amount payload)]).
Proof.
  intros A F S. run_handler. rewrite A, get_dict, F. cbn [truthy negb save].
  rewrite S, decode_b64encode. reflexivity.
Qed.

(** The handler returns in no other way. *)
Lemma create_qris_Return_inv (app : App) (payload : CreateQrisRequest.t)
    (h h' : history) (resp : QrisResponse.t) :
  create_qris app payload h = (Return resp, h') ->
  exists items img png,
    generate_qr_answer (qris_processor app) h
      (CreateQrisRequest.amount payload) = Return (PDict items)
    /\ field items "qr_image" = PImage img
    /\ save_PNG img = Return png
    /\ resp = {| QrisResponse.order_ref := CreateQrisRequest.order_ref payload;
                 QrisResponse.amount := CreateQrisRequest.amount payload;
                 QrisResponse.qr_image_base64 :=
                   lit "data:image/png;base64," ++ b64encode png |}
    /\ h' = h ++ [GenerateQr (CreateQrisRequest.amount payload)].
Proof.
  run_handler.
  destruct (generate_qr_answer (qris_processor app) h
              (CreateQrisRequest.amount payload)) as [r|e] eqn:A.
  2:{ destruct (is_Exception e); discriminate. }
  destruct r as [| | | |items| |]; try discriminate.
  rewrite get_dict.
  destruct (field items "qr_image") as [|b|z|s|d|img|cls b] eqn:F;
    cbn [truthy negb save no_attribute AttributeError is_Exception
         derives_Exception]; try discriminate.
  - destruct b; discriminate.
  - destruct (negb (z =? 0)); discriminate.
  - destruct s; discriminate.
  - destruct d; discriminate.
  - destruct (save_PNG img) as [png|e] eqn:S.
    + rewrite decode_b64encode. intros E; inversion E; subst.
      exists items, img, png. auto.
    + destruct (is_Exception e); discriminate.
  - destruct b; discriminate.
Qed.

(** A response that comes out of the middleware was produced by the
    handler. *)
Lemma gate_Return_inv {R} (app : App) (request : Request)
    (call_next : Request -> M R) (h h' : history) (resp : R) :
  secure_internal_api app request call_next h = (Return resp, h') ->
  gate_verdict app request = Return tt
  /\ call_next request h = (Return resp, h').
Proof.
  rewrite secure_internal_api_verdict.
  destruct (gate_verdict app request) as [[]|e]; [auto | discriminate].
Qed.

Lemma contains_suffix (pre s : pystr) : contains (pre ++ s) s.
Proof. exists pre, []. rewrite app_nil_r. reflexivity. Qed.

(** C4.  Whenever a /create-qris request comes back with a response (so it
    went through the gate and the handler returned), the response carries
    the [order_ref] and the [amount] of the request's payload, as they
    were. *)
Theorem create_qris_echoes_order_ref_and_amount :
  forall app request payload h resp h',
    has_valid_key app request ->
    secure_internal_api app request (fun _ => create_qris app payload) h
      = (Return resp, h') ->
    QrisResponse.order_ref resp = CreateQrisRequest.order_ref payload
    /\ QrisResponse.amount resp = CreateQrisRequest.amount payload.
Proof.
  intros app request payload h resp h' _ Run.
  apply gate_Return_inv in Run. destruct Run as [_ Run].
  apply create_qris_Return_inv in Run.
  destruct Run as (items & img & png & _ & _ & _ & -> & _).
  split; reflexivity.
Qed.

(** C8.  A successful /create-qris response has, as [qr_image_base64], the
    text "data:image/png;base64," followed by the Base64 encoding of the
    PNG bytes that saving the collaborator's image produced: the payload is
    what the handler's encoder gives, it is the RFC 4648 encoding of those
    bytes, and a Base64 decoder reads the same bytes back from it.  And an
    authenticated request whose collaborator hands back an image that saves
    as PNG does get that response. *)
Theorem qr_image_base64_is_png_data_uri :
  forall app request payload h,
    has_valid_key app request ->
    (forall resp h',
        secure_internal_api app request (fun _ => create_qris app payload) h
          = (Return resp, h') ->
        exists items img png,
          generate_qr_answer (qris_processor app) h
            (CreateQrisRequest.amount payload) = Return (PDict items)
          /\ field items "qr_image" = PImage img
          /\ save_PNG img = Return png
          /\ QrisResponse.qr_image_base64 resp
             = lit "data:image/png;base64," ++ b64encode png
          /\ (is_bytes png ->
              QrisResponse.qr_image_base64 resp
              = lit "data:image/png;base64," ++ rfc4648_encode png
              /\ b64decode (skipn 22 (QrisResponse.qr_image_base64 resp))
                 = Some png))
    /\ (forall items img png,
          generate_qr_answer (qris_processor app) h
            (CreateQrisRequest.amount payload) = Return (PDict items) ->
          field items "qr_image" = PImage img ->
          save_PNG img = Return png ->
          is_bytes png ->
          exists resp,
            secure_internal_api app request
              (fun _ => create_qris app payload) h
            = (Return resp,
               h ++ [GenerateQr (CreateQrisRequest.amount payload)])
            /\ QrisResponse.qr_image_base64 resp
               = lit "data:image/png;base64," ++ rfc4648_encode png
            /\ b64decode (skipn 22 (QrisResponse.qr_image_base64 resp))
               = Some png).
Proof.
  intros app request payload h V. split.
  - intros resp h' Run. apply gate_Return_inv in Run. destruct Run as [_ Run].
    apply create_qris_Return_inv in Run.
    destruct Run as (items & img & png & A & F & S & -> & _).
    exists items, img, png.
    split; [exact A|]. split; [exact F|]. split; [exact S|].
    split; [reflexivity|]. intros B.
    cbn [QrisResponse.qr_image_base64]. split.
    + rewrite (b64encode_is_rfc4648 _ B). reflexivity.
    + change (skipn 22 (lit "data:image/png;base64," ++ b64encode png))
        with (b64encode png).
      apply b64decode_b64encode. exact B.
  - intros items img png A F S B. eexists. split; [|split].
    + rewrite (gate_pass _ _ _ _ V).
      apply (create_qris_success _ _ _ _ _ _ A F S).
    + cbn [QrisResponse.qr_image_base64].
      rewrite (b64encode_is_rfc4648 _ B). reflexivity.
    + cbn [QrisResponse.qr_image_base64].
      change (skipn 22 (lit "data:image/png;base64," ++ b64encode png))
        with (b64encode png).
      apply b64decode_b64encode. exact B.
Qed.

(** C6.  For an authenticated /create-qris request, when the collaborator's
    result has no 'qr_image' entry or a falsy one, the handler raises an
    [HTTPException] with status 500; its detail is "Error saat generate
    QR: " followed by the text of the handler's own exception "Library QRIS
    gagal membuat gambar." (status 500 as well). *)
Theorem create_qris_without_image_is_500 :
  forall app request payload h items,
    has_valid_key app request ->
    generate_qr_answer (qris_processor app) h
      (CreateQrisRequest.amount payload) = Return (PDict items) ->
    (lookup (lit "qr_image") items = None
     \/ exists v, lookup (lit "qr_image") items = Some v
                  /\ truthy v = false) ->
    secure_internal_api app request (fun _ => create_qris app payload) h
    = (Raise (HTTPException 500
                (lit "Error saat generate QR: "
                   ++ str_exn app
                        (HTTPException 500
                           (lit "Library QRIS gagal membuat gambar.")))),
       h ++ [GenerateQr (CreateQrisRequest.amount payload)]).
Proof.
  intros app request payload h items V A NoImage.
  rewrite (gate_pass _ _ _ _ V).
  apply (create_qris_no_image _ _ _ items A).
  unfold field. destruct NoImage as [-> | (v & -> & F)]; auto.
Qed.

(** ** The check-status handler *)

Lemma check_payment_collaborator_raises (app : App)
    (payload : CheckStatusRequest.t) (h : history) (e : exn) :
  check_payment_answer (qris_processor app) h
    (CheckStatusRequest.order_ref payload) (CheckStatusRequest.amount payload)
    = Raise e ->
  is_Exception e = true ->
  check_payment_status app payload h
  = (Raise (HTTPException 500
              (lit "Error saat memeriksa pembayaran: " ++ str_exn app e)),
     h ++ [CheckPayment (CheckStatusRequest.order_ref payload)
                        (CheckStatusRequest.amount payload)]).
Proof. intros A E. run_handler. rewrite A, E. reflexivity. Qed.

(** On a dict whose 'data' entry is absent or a dict, line 92 of the source
    evaluates without raising. *)
Lemma check_payment_status_on_dict (app : App)
    (payload : CheckStatusRequest.t) (h : history)
    (items : list (pystr * pyval)) :
  check_payment_answer (qris_processor app) h
    (CheckStatusRequest.order_ref payload) (CheckStatusRequest.amount payload)
    = Return (PDict items) ->
  truthy (field items "success") = false \/ data_is_dict_or_absent items ->
  check_payment_status app payload h
  = (Return {| StatusResponse.status :=
                 if truthy (field items "success")
                    && eq_str (nested_status items) (lit "PAID")
                 then lit "PAID" else lit "PENDING" |},
     h ++ [CheckPayment (CheckStatusRequest.order_ref payload)
                        (CheckStatusRequest.amount payload)]).
Proof.
  intros A Shape. run_handler. rewrite A, get_dict.
  destruct (truthy (field items "success")) eqn:T; [|reflexivity].
  destruct Shape as [C|Shape]; [discriminate|].
  unfold nested_status. cbn [get andb].
  destruct Shape as [N | [d D]].
  - rewrite N. reflexivity.
  - rewrite D. reflexivity.
Qed.

Lemma eq_str_PAID (v : pyval) :
  eq_str v (lit "PAID") = true <-> v = PStr (lit "PAID").
Proof.
  destruct v; simpl; try (split; [discriminate | discriminate]).
  rewrite str_eqb_eq. split; [intros ->; reflexivity | intros E; inversion E; auto].
Qed.

(** C5.  For an authenticated request, when the collaborator's operation
    raises an exception [e] (an instance of [Exception]), the handler raises
    an [HTTPException] with status 500 whose detail ends with [str(e)]:
    "Error saat generate QR: ..." on /create-qris, "Error saat memeriksa
    pembayaran: ..." on /check-payment. *)
Theorem collaborator_exception_becomes_500 :
  forall app request h e,
    has_valid_key app request ->
    is_Exception e = true ->
    (forall payload,
        generate_qr_answer (qris_processor app) h
          (CreateQrisRequest.amount payload) = Raise e ->
        exists detail,
          secure_internal_api app request
            (fun _ => create_qris app payload) h
          = (Raise (HTTPException 500 detail),
             h ++ [GenerateQr (CreateQrisRequest.amount payload)])
          /\ detail = lit "Error saat generate QR: " ++ str_exn app e
          /\ contains detail (str_exn app e))
    /\ (forall payload,
          check_payment_answer (qris_processor app) h
            (CheckStatusRequest.order_ref payload)
            (CheckStatusRequest.amount payload) = Raise e ->
          exists detail,
            secure_internal_api app request
              (fun _ => check_payment_status app payload) h
            = (Raise (HTTPException 500 detail),
               h ++ [CheckPayment (CheckStatusRequest.order_ref payload)
                                  (CheckStatusRequest.amount payload)])
            /\ detail
               = lit "Error saat memeriksa pembayaran: " ++ str_exn app e
            /\ contains detail (str_exn app e)).
Proof.
  intros app request h e V E. split; intros payload A; eexists;
    (split; [rewrite (gate_pass _ _ _ _ V) | split;
             [reflexivity | apply contains_suffix]]).
  - apply (create_qris_collaborator_raises _ _ _ _ A E).
  - apply (check_payment_collaborator_raises _ _ _ _ A E).
Qed.

(** C1, as amended.  For every collaborator result that is a dict in which
    'success' is falsy (false, absent, ...) or 'data' is absent or is itself
    a dict, the handler returns a status that is "PAID" or "PENDING", and it
    is "PAID" exactly when the 'success' entry is truthy and the 'status'
    entry of 'data' is the string "PAID"; 'success' false or absent
    (whatever 'data' is), 'data' absent, 'status' absent or anything else
    all give "PENDING". *)
Theorem check_payment_status_mapping :
  forall app payload h items,
    check_payment_answer (qris_processor app) h
      (CheckStatusRequest.order_ref payload)
      (CheckStatusRequest.amount payload) = Return (PDict items) ->
    truthy (field items "success") = false \/ data_is_dict_or_absent items ->
    exists status,
      check_payment_status app payload h
      = (Return {| StatusResponse.status := status |},
         h ++ [CheckPayment (CheckStatusRequest.order_ref payload)
                            (CheckStatusRequest.amount payload)])
      /\ (status = lit "PAID" \/ status = lit "PENDING")
      /\ (status = lit "PAID" <->
          truthy (field items "success") = true
          /\ nested_status items = PStr (lit "PAID")).
Proof.
  intros app payload h items A Shape. eexists. split.
  - apply (check_payment_status_on_dict _ _ _ _ A Shape).
  - rewrite <- eq_str_PAID.
    destruct (truthy (field items "success"));
      destruct (eq_str (nested_status items) (lit "PAID")); cbn [andb];
      (split; [auto|]); split; try tauto; try discriminate;
      intros [? ?]; discriminate.
Qed.

(** ** The claims at concrete requests *)

Lemma sample_has_valid_key (path : string) (g c : result pyval) :
  has_valid_key (sample_app (Some (lit "s3cret")) g c)
                (post path (with_key (lit "s3cret"))).
Proof.
  exists (lit "s3cret"). split; [reflexivity|]. split; [discriminate|].
  reflexivity.
Defined.

(** On {"success": True, "data": None} the handler does not answer
    "PENDING": [None.get] raises, and the request ends as a 500. *)
Lemma check_payment_data_None_is_500_not_PENDING :
  get data_None_result "success" PNone = Return (PBool true)
  /\ get data_None_result "data" (PDict []) = Return PNone
  /\ check_payment_status
       (sample_app (Some (lit "s3cret")) (Raise timeout_error)
                   (Return data_None_result))
       check_1 []
     = (Raise (HTTPException 500
                 (lit "Error saat memeriksa pembayaran: 'NoneType' object has no attribute 'get'")),
        [CheckPayment (lit "ORD-1") 10000])
  /\ fst (check_payment_status
            (sample_app (Some (lit "s3cret")) (Raise timeout_error)
                        (Return data_None_result))
            check_1 [])
     <> Return {| StatusResponse.status := lit "PENDING" |}.
Proof. repeat split. discriminate. Qed.

(** A truthy 'success' that is not [True] counts as success. *)
Example check_payment_truthy_success_is_PAID :
  check_payment_status
    (sample_app (Some (lit "s3cret")) (Raise timeout_error)
                (Return success_yes_result))
    check_1 []
  = (Return {| StatusResponse.status := lit "PAID" |},
     [CheckPayment (lit "ORD-1") 10000]).
Proof. reflexivity. Qed.

Lemma check_payment_status_mapping_witness :
  exists status,
    check_payment_status
      (sample_app (Some (lit "s3cret")) (Raise timeout_error)
                  (Return failed_result))
      check_1 []
    = (Return {| StatusResponse.status := status |},
       [] ++ [CheckPayment (lit "ORD-1") 10000])
    /\ (status = lit "PAID" \/ status = lit "PENDING")
    /\ (status = lit "PAID" <->
        truthy (PBool false) = true /\ PNone = PStr (lit "PAID")).
Proof.
  apply (check_payment_status_mapping
           (sample_app (Some (lit "s3cret")) (Raise timeout_error)
                       (Return failed_result))
           check_1 []
           [(lit "success", PBool false); (lit "data", PNone)]).
  - reflexivity.
  - left. reflexivity.
Defined.

Lemma gate_guards_exactly_two_paths_witness :
  lit "/health" <> lit "/create-qris"
  /\ lit "/health" <> lit "/check-payment"
  /\ secure_internal_api
       (sample_app None (Raise timeout_error) (Raise timeout_error))
       {| method := lit "GET"; url_path := lit "/health"; headers := [] |}
       (fun _ => root) []
     = root [].
Proof.
  split; [discriminate|]. split; [discriminate|].
  apply (proj1 (proj2 (proj2 gate_guards_exactly_two_paths)));
    discriminate.
Defined.

Lemma empty_key_is_refused_witness :
  path_in (lit "/check-payment") protected_paths = true
  /\ headers_get (with_key []) "X-API-KEY" = Some []
  /\ secure_internal_api
       (sample_app (Some []) (Raise timeout_error) (Return paid_result))
       (post "/check-payment" (with_key []))
       (fun _ => check_payment_status
                   (sample_app (Some []) (Raise timeout_error)
                               (Return paid_result))
                   check_1)
       []
     = (Raise Forbidden, []).
Proof.
  split; [reflexivity|]. split; [reflexivity|].
  apply (proj1 empty_key_is_refused); reflexivity.
Defined.

Lemma comparison_raises_TypeError_witness :
  path_in (lit "/check-payment") protected_paths = true
  /\ headers_get (with_key (lit "abc")) "X-API-KEY" = Some (lit "abc")
  /\ lit "abc" <> []
  /\ exists msg,
       secure_internal_api
         (sample_app None (Raise timeout_error) (Return paid_result))
         (post "/check-payment" (with_key (lit "abc")))
         (fun _ => check_payment_status
                     (sample_app None (Raise timeout_error)
                                 (Return paid_result))
                     check_1)
         []
       = (Raise (TypeError msg), [])
       /\ TypeError msg <> Forbidden.
Proof.
  split; [reflexivity|]. split; [reflexivity|]. split; [discriminate|].
  apply (proj2 comparison_raises_TypeError_outside_ascii
           _ (sample_app None (Raise timeout_error) (Return paid_result))
           (post "/check-payment" (with_key (lit "abc")))
           _ [] (lit "abc")).
  - reflexivity.
  - reflexivity.
  - discriminate.
  - right. reflexivity.
Defined.

Lemma absent_secret_locks_out_witness :
  (forall key, compare_digest key None <> Return true)
  /\ exists e,
       secure_internal_api
         (sample_app None (Return image_result) (Return paid_result))
         (post "/create-qris" (with_key (lit "guess")))
         (fun _ => create_qris
                     (sample_app None (Return image_result)
                                 (Return paid_result))
                     order_1)
         []
       = (Raise e, [])
       /\ (e = Forbidden \/ exists msg, e = TypeError msg).
Proof.
  apply (absent_secret_locks_out _
           (sample_app None (Return image_result) (Return paid_result))
           (post "/create-qris" (with_key (lit "guess"))));
    reflexivity.
Defined.

Lemma create_qris_echoes_witness :
  QrisResponse.order_ref
    {| QrisResponse.order_ref := lit "ORD-1";
       QrisResponse.amount := 10000;
       QrisResponse.qr_image_base64 := lit "data:image/png;base64,iVBORw==" |}
  = CreateQrisRequest.order_ref order_1
  /\ QrisResponse.amount
       {| QrisResponse.order_ref := lit "ORD-1";
          QrisResponse.amount := 10000;
          QrisResponse.qr_image_base64 :=
            lit "data:image/png;base64,iVBORw==" |}
     = CreateQrisRequest.amount order_1.
Proof.
  apply (create_qris_echoes_order_ref_and_amount
           (sample_app (Some (lit "s3cret")) (Return image_result)
                       (Return paid_result))
           (post "/create-qris" (with_key (lit "s3cret")))
           order_1 [] _ [GenerateQr 10000]).
  - apply sample_has_valid_key.
  - reflexivity.
Defined.

Lemma qr_image_base64_witness :
  is_bytes [137; 80; 78; 71]%N
  /\ exists resp,
      secure_internal_api
        (sample_app (Some (lit "s3cret")) (Return image_result)
                    (Return paid_result))
        (post "/create-qris" (with_key (lit "s3cret")))
        (fun _ => create_qris
                    (sample_app (Some (lit "s3cret")) (Return image_result)
                                (Return paid_result))
                    order_1)
        []
      = (Return resp, [GenerateQr 10000])
      /\ QrisResponse.qr_image_base64 resp
         = lit "data:image/png;base64,iVBORw=="
      /\ b64decode (skipn 22 (QrisResponse.qr_image_base64 resp))
         = Some [137; 80; 78; 71]%N.
Proof.
  assert (B : is_bytes [137; 80; 78; 71]%N).
  { unfold is_bytes. repeat constructor. }
  split; [exact B|].
  apply (proj2 (qr_image_base64_is_png_data_uri
                  (sample_app (Some (lit "s3cret")) (Return image_result)
                              (Return paid_result))
                  (post "/create-qris" (with_key (lit "s3cret")))
                  order_1 [] (sample_has_valid_key _ _ _))
           [(lit "qr_string", PStr (lit "00020101021226"));
            (lit "qr_image", PImage sample_image)]
           sample_image [137; 80; 78; 71]%N eq_refl eq_refl eq_refl B).
Defined.

Lemma create_qris_without_image_witness :
  secure_internal_api
    (sample_app (Some (lit "s3cret")) (Return no_image_result)
                (Return paid_result))
    (post "/create-qris" (with_key (lit "s3cret")))
    (fun _ => create_qris
                (sample_app (Some (lit "s3cret")) (Return no_image_result)
                            (Return paid_result))
                order_1)
    []
  = (Raise (HTTPException 500
              (lit "Error saat generate QR: 500: Library QRIS gagal membuat gambar.")),
     [GenerateQr 10000]).
Proof.
  apply (create_qris_without_image_is_500
           (sample_app (Some (lit "s3cret")) (Return no_image_result)
                       (Return paid_result))
           (post "/create-qris" (with_key (lit "s3cret")))
           order_1 [] [(lit "qr_string", PStr (lit "00020101021226"))]).
  - apply sample_has_valid_key.
  - reflexivity.
  - left. reflexivity.
Defined.

Lemma collaborator_exception_witness :
  exists detail,
    secure_internal_api
      (sample_app (Some (lit "s3cret")) (Raise timeout_error)
                  (Raise timeout_error))
      (post "/check-payment" (with_key (lit "s3cret")))
      (fun _ => check_payment_status
                  (sample_app (Some (lit "s3cret")) (Raise timeout_error)
                              (Raise timeout_error))
                  check_1)
      []
    = (Raise (HTTPException 500 detail),
       [] ++ [CheckPayment (lit "ORD-1") 10000])
    /\ detail = lit "Error saat memeriksa pembayaran: "
                  ++ lit "upstream timed out"
    /\ contains detail (lit "upstream timed out").
Proof.
  apply (proj2 (collaborator_exception_becomes_500
                  (sample_app (Some (lit "s3cret")) (Raise timeout_error)
                              (Raise timeout_error))
                  (post "/check-payment" (with_key (lit "s3cret")))
                  [] timeout_error (sample_has_valid_key _ _ _) eq_refl)
           check_1).
  reflexivity.
Defined.

(** ** The scenarios of the service *)

Example scenario_wrong_key_403 :
  secure_internal_api
    (sample_app (Some (lit "s3cret")) (Return image_result)
                (Return paid_result))
    (post "/create-qris" (with_key (lit "wrong")))
    (fun _ => create_qris
                (sample_app (Some (lit "s3cret")) (Return image_result)
                            (Return paid_result))
                order_1)
    []
  = (Raise Forbidden, []).
Proof. reflexivity. Qed.

Example scenario_create_qris_200 :
  secure_internal_api
    (sample_app (Some (lit "s3cret")) (Return image_result)
                (Return paid_result))
    (post "/create-qris" (with_key (lit "s3cret")))
    (fun _ => create_qris
                (sample_app (Some (lit "s3cret")) (Return image_result)
                            (Return paid_result))
                order_1)
    []
  = (Return {| QrisResponse.order_ref := lit "ORD-1";
               QrisResponse.amount := 10000;
               QrisResponse.qr_image_base64 :=
                 lit "data:image/png;base64,iVBORw==" |},
     [GenerateQr 10000]).
Proof. reflexivity. Qed.

Example scenario_check_payment_PAID :
  check_payment_status
    (sample_app (Some (lit "s3cret")) (Return image_result)
                (Return paid_result))
    check_1 []
  = (Return {| StatusResponse.status := lit "PAID" |},
     [CheckPayment (lit "ORD-1") 10000]).
Proof. reflexivity. Qed.

Example scenario_check_payment_EXPIRED :
  check_payment_status
    (sample_app (Some (lit "s3cret")) (Return image_result)
                (Return expired_result))
    check_1 []
  = (Return {| StatusResponse.status := lit "PENDING" |},
     [CheckPayment (lit "ORD-1") 10000]).
Proof. reflexivity. Qed.

(** * Further properties of the service *)

(** ** The gate as a whole *)

Lemma carries_the_secret_iff (app : App) (request : Request) :
  carries_the_secret app request <-> has_valid_key app request.
Proof.
  unfold carries_the_secret, has_valid_key. split.
  - intros (k & H & S & N & A). exists k. rewrite compare_digest_true. auto.
  - intros (k & H & N & C). apply compare_digest_true in C.
    destruct C as [S A]. exists k. auto.
Qed.

Lemma gate_verdict_refused (app : App) (request : Request) :
  path_in (url_path request) protected_paths = true ->
  ~ has_valid_key app request ->
  exists e, gate_verdict app request = Raise e
            /\ (e = Forbidden \/ exists msg, e = TypeError msg).
Proof.
  intros P NV. unfold gate_verdict. rewrite P.
  destruct (headers_get (headers request) "X-API-KEY") as [[|c k]|] eqn:K;
    eauto.
  destruct (compare_digest (c :: k) (INTERNAL_API_KEY (settings app)))
    as [[|]|e] eqn:C; eauto.
  - exfalso. apply NV. exists (c :: k). split; [exact K|].
    split; [discriminate | exact C].
  - exists e. split; [reflexivity|]. right.
    unfold compare_digest in C.
    destruct (INTERNAL_API_KEY (settings app)) as [s|].
    + destruct (isascii (c :: k) && isascii s); inversion C; eauto.
    + inversion C; eauto.
Qed.

(** X1.  On a protected path the gate lets a request through exactly when
    its X-API-KEY is the configured secret, non-empty and ASCII: then the
    middleware is the handler; otherwise it raises (the 403 refusal or the
    comparison's [TypeError]) and the handler does not run. *)
Theorem gate_accepts_exactly_the_secret :
  forall R app request (call_next : Request -> M R) h,
    path_in (url_path request) protected_paths = true ->
    (carries_the_secret app request ->
     secure_internal_api app request call_next h = call_next request h)
    /\ (~ carries_the_secret app request ->
        exists e,
          secure_internal_api app request call_next h = (Raise e, h)
          /\ (e = Forbidden \/ exists msg, e = TypeError msg)).
Proof.
  intros R app request call_next h P. split.
  - intros C. apply gate_pass. apply carries_the_secret_iff; exact C.
  - intros NC. rewrite secure_internal_api_verdict.
    destruct (gate_verdict_refused app request P) as (e & V & Kind).
    + intros V. apply NC. apply carries_the_secret_iff; exact V.
    + rewrite V. eauto.
Qed.

(** X2.  What the gate decides depends neither on the handler behind it nor
    on the calls made so far: for a given application and request, either
    the middleware is the handler for every handler and history, or it
    raises one and the same exception for all of them and leaves the
    history as it found it. *)
Theorem gate_decision_is_independent_of_handler :
  forall app request,
    (forall R (call_next : Request -> M R) h,
        secure_internal_api app request call_next h = call_next request h)
    \/ (exists e, forall R (call_next : Request -> M R) h,
           secure_internal_api app request call_next h = (Raise e, h)).
Proof.
  intros app request.
  destruct (gate_verdict app request) as [[]|e] eqn:V.
  - left. intros. rewrite secure_internal_api_verdict, V. reflexivity.
  - right. exists e. intros. rewrite secure_internal_api_verdict, V.
    reflexivity.
Qed.

(** X3.  The gate looks at the path and at the X-API-KEY value only: two
    requests that agree on these (whatever their methods and their other
    headers) are both let through or both stopped with the same
    exception. *)
Theorem gate_ignores_method_and_other_headers :
  forall R app r1 r2 (call_next : Request -> M R) h,
    url_path r1 = url_path r2 ->
    headers_get (headers r1) "X-API-KEY"
      = headers_get (headers r2) "X-API-KEY" ->
    (secure_internal_api app r1 call_next h = call_next r1 h
     /\ secure_internal_api app r2 call_next h = call_next r2 h)
    \/ (exists e,
          secure_internal_api app r1 call_next h = (Raise e, h)
          /\ secure_internal_api app r2 call_next h = (Raise e, h)).
Proof.
  intros R app r1 r2 call_next h P K.
  rewrite !secure_internal_api_verdict.
  assert (V : gate_verdict app r1 = gate_verdict app r2).
  { unfold gate_verdict. rewrite P, K. reflexivity. }
  rewrite V. destruct (gate_verdict app r2) as [[]|e]; eauto.
Qed.

(** X4.  A secret that is the empty string, or that holds a character
    outside ASCII, can be matched by no key: every request to a protected
    path is stopped, whatever it carries. *)
Theorem unusable_secret_locks_out :
  forall R app request (call_next : Request -> M R) h s,
    INTERNAL_API_KEY (settings app) = Some s ->
    s = [] \/ isascii s = false ->
    path_in (url_path request) protected_paths = true ->
    exists e,
      secure_internal_api app request call_next h = (Raise e, h)
      /\ (e = Forbidden \/ exists msg, e = TypeError msg).
Proof.
  intros R app request call_next h s S Bad P.
  rewrite secure_internal_api_verdict.
  destruct (gate_verdict_refused app request P) as (e & V & Kind).
  - intros (k & _ & N & C). apply compare_digest_true in C.
    destruct C as [E A]. rewrite S in E. injection E as ->.
    destruct Bad; congruence.
  - rewrite V. eauto.
Qed.

(** ** What the handlers ask of the collaborator *)

Ltac case_all :=
  repeat match goal with
         | |- context [match ?x with Return _ => _ | Raise _ => _ end] =>
             destruct x
         | |- context [if ?b then _ else _] => destruct b
         end.

Lemma create_qris_history (app : App) (payload : CreateQrisRequest.t)
    (h : history) :
  snd (create_qris app payload h)
  = h ++ [GenerateQr (CreateQrisRequest.amount payload)].
Proof. run_handler. case_all; reflexivity. Qed.

Lemma check_payment_status_history (app : App)
    (payload : CheckStatusRequest.t) (h : history) :
  snd (check_payment_status app payload h)
  = h ++ [CheckPayment (CheckStatusRequest.order_ref payload)
                       (CheckStatusRequest.amount payload)].
Proof. run_handler. case_all; reflexivity. Qed.

(** X5.  Whatever the collaborator answers and however the request ends,
    [create_qris] calls the collaborator exactly once: [generate_qr] with
    the payload's amount.  It never calls [check_payment], never retries,
    and the order reference is not passed on. *)
Theorem create_qris_calls_generate_qr_once :
  forall app payload h,
    snd (create_qris app payload h)
    = h ++ [GenerateQr (CreateQrisRequest.amount payload)].
Proof. intros app payload h. run_handler. case_all; reflexivity. Qed.

(** X6.  Whatever the collaborator answers and however the request ends,
    [check_payment_status] calls the collaborator exactly once:
    [check_payment] with the payload's order reference and amount, both
    unchanged. *)
Theorem check_payment_status_calls_check_payment_once :
  forall app payload h,
    snd (check_payment_status app payload h)
    = h ++ [CheckPayment (CheckStatusRequest.order_ref payload)
                         (CheckStatusRequest.amount payload)].
Proof. intros app payload h. run_handler. case_all; reflexivity. Qed.

(** X7.  Nothing is remembered between requests: two /create-qris requests
    in a row for the same payload reach the collaborator twice, and polling
    /check-payment [n] times reaches it [n] times. *)
Theorem no_caching_between_requests :
  forall app create check h,
    snd (create_qris app create (snd (create_qris app create h)))
    = h ++ [GenerateQr (CreateQrisRequest.amount create);
            GenerateQr (CreateQrisRequest.amount create)]
    /\ forall n,
        Nat.iter n (fun h' => snd (check_payment_status app check h')) h
        = h ++ repeat (CheckPayment (CheckStatusRequest.order_ref check)
                                    (CheckStatusRequest.amount check)) n.
Proof.
  intros app create check h. split.
  - rewrite !create_qris_history, <- app_assoc. reflexivity.
  - induction n as [|n IH].
    + cbn. rewrite app_nil_r. reflexivity.
    + rewrite Nat.iter_succ, IH, check_payment_status_history, <- app_assoc.
      f_equal. symmetry. apply repeat_cons.
Qed.

(** X8.  Behind the gate a request costs at most one call: the history
    after the middleware and a handler is the one before it (the request was
    stopped at the gate) or has exactly one more call, the handler's. *)
Theorem at_most_one_collaborator_call_per_request :
  forall app request h,
    (forall payload,
        let h' := snd (secure_internal_api app request
                         (fun _ => create_qris app payload) h) in
        h' = h \/ h' = h ++ [GenerateQr (CreateQrisRequest.amount payload)])
    /\ (forall payload,
          let h' := snd (secure_internal_api app request
                           (fun _ => check_payment_status app payload) h) in
          h' = h
          \/ h' = h ++ [CheckPayment (CheckStatusRequest.order_ref payload)
                                     (CheckStatusRequest.amount payload)]).
Proof.
  intros app request h.
  split; intros payload; cbv zeta; rewrite secure_internal_api_verdict;
    destruct (gate_verdict app request) as [[]|e]; auto; right.
  - apply create_qris_history.
  - apply check_payment_status_history.
Qed.

(** ** How the handlers fail *)

Ltac case_run H :=
  repeat match type of H with
         | context [match ?x with Return _ => _ | Raise _ => _ end] =>
             destruct x eqn:?
         | context [if ?b then _ else _] => destruct b eqn:?
         end.

(** X9.  [create_qris] has one way of failing: whenever it raises, it
    raises an [HTTPException] with status 500 whose detail starts with
    "Error saat generate QR: "; the only other thing that can leave it is a
    signal outside [Exception], which it lets pass. *)
Theorem create_qris_raises_only_500 :
  forall app payload h e h',
    create_qris app payload h = (Raise e, h') ->
    (exists text,
        e = HTTPException 500 (lit "Error saat generate QR: " ++ text))
    \/ is_Exception e = false.
Proof.
  intros app payload h e h'. run_handler. intros H.
  case_run H; inversion H; subst;
    first [left; eexists; reflexivity | right; assumption].
Qed.

(** X10.  [check_payment_status] has one way of failing: whenever it raises,
    it raises an [HTTPException] with status 500 whose detail starts with
    "Error saat memeriksa pembayaran: "; the only other thing that can
    leave it is a signal outside [Exception], which it lets pass. *)
Theorem check_payment_status_raises_only_500 :
  forall app payload h e h',
    check_payment_status app payload h = (Raise e, h') ->
    (exists text,
        e = HTTPException 500
              (lit "Error saat memeriksa pembayaran: " ++ text))
    \/ is_Exception e = false.
Proof.
  intros app payload h e h'. run_handler. intros H.
  case_run H; inversion H; subst;
    first [left; eexists; reflexivity | right; assumption].
Qed.

(** X11.  [except Exception] is not a catch-all: a signal raised by the
    collaborator that does not derive from [Exception] leaves either
    handler as it is, not wrapped into a 500. *)
Theorem non_Exception_passes_through :
  forall app h e,
    is_Exception e = false ->
    (forall payload,
        generate_qr_answer (qris_processor app) h
          (CreateQrisRequest.amount payload) = Raise e ->
        create_qris app payload h
        = (Raise e, h ++ [GenerateQr (CreateQrisRequest.amount payload)]))
    /\ (forall payload,
          check_payment_answer (qris_processor app) h
            (CheckStatusRequest.order_ref payload)
            (CheckStatusRequest.amount payload) = Raise e ->
          check_payment_status app payload h
          = (Raise e,
             h ++ [CheckPayment (CheckStatusRequest.order_ref payload)
                                (CheckStatusRequest.amount payload)])).
Proof.
  intros app h e E. split; intros payload A; run_handler;
    rewrite A, E; reflexivity.
Qed.

(** X12.  When the image cannot be saved as PNG (its [save] raises an
    exception [e]), [create_qris] raises a 500 whose detail is "Error saat
    generate QR: " followed by [str(e)]. *)
Theorem create_qris_save_failure_is_500 :
  forall app payload h items img e,
    generate_qr_answer (qris_processor app) h
      (CreateQrisRequest.amount payload) = Return (PDict items) ->
    field items "qr_image" = PImage img ->
    save_PNG img = Raise e ->
    is_Exception e = true ->
    create_qris app payload h
    = (Raise (HTTPException 500
                (lit "Error saat generate QR: " ++ str_exn app e)),
       h ++ [GenerateQr (CreateQrisRequest.amount payload)]).
Proof.
  intros app payload h items img e A F S E. run_handler.
  rewrite A, get_dict, F. cbn [truthy negb save]. rewrite S, E. reflexivity.
Qed.

(** X13.  A 'qr_image' entry that is truthy but is not an image object (a
    string, a number, a dict, ...) has no [save]: [create_qris] raises a 500
    whose detail carries the [AttributeError] text. *)
Theorem create_qris_non_image_is_500 :
  forall app payload h items v,
    generate_qr_answer (qris_processor app) h
      (CreateQrisRequest.amount payload) = Return (PDict items) ->
    field items "qr_image" = v ->
    truthy v = true ->
    (forall img, v <> PImage img) ->
    create_qris app payload h
    = (Raise (HTTPException 500
                (lit "Error saat generate QR: "
                   ++ lit "'" ++ type_name v
                   ++ lit "' object has no attribute 'save'")),
       h ++ [GenerateQr (CreateQrisRequest.amount payload)]).
Proof.
  intros app payload h items v A F T NI. run_handler.
  rewrite A, get_dict, F, T. cbn [negb].
  destruct v; try reflexivity. exfalso. eapply NI. reflexivity.
Qed.


(** ** The status mapping outside the expected shape *)

(** X15.  [and] stops at a falsy 'success': when the entry is false, falsy
    or absent the handler answers "PENDING" without looking at 'data',
    whatever 'data' is. *)
Theorem falsy_success_is_PENDING :
  forall app payload h items,
    check_payment_answer (qris_processor app) h
      (CheckStatusRequest.order_ref payload)
      (CheckStatusRequest.amount payload) = Return (PDict items) ->
    truthy (field items "success") = false ->
    check_payment_status app payload h
    = (Return {| StatusResponse.status := lit "PENDING" |},
       h ++ [CheckPayment (CheckStatusRequest.order_ref payload)
                          (CheckStatusRequest.amount payload)]).
Proof.
  intros app payload h items A F. run_handler.
  rewrite A, get_dict, F. reflexivity.
Qed.



(** ** The image survives the encoding *)

(** X18.  Nothing of the image is lost on the way out: in a response that
    [create_qris] returns, dropping the 22 characters of
    "data:image/png;base64," and decoding the rest as Base64 gives back,
    byte for byte, what the image saved as PNG. *)
Theorem qr_image_base64_decodes_to_the_png :
  forall app payload h resp h',
    create_qris app payload h = (Return resp, h') ->
    exists items img png,
      generate_qr_answer (qris_processor app) h
        (CreateQrisRequest.amount payload) = Return (PDict items)
      /\ field items "qr_image" = PImage img
      /\ save_PNG img = Return png
      /\ (is_bytes png ->
          b64decode (skipn 22 (QrisResponse.qr_image_base64 resp))
          = Some png).
Proof.
  intros app payload h resp h' Run.
  apply create_qris_Return_inv in Run.
  destruct Run as (items & img & png & A & F & S & -> & _).
  exists items, img, png. repeat split; try assumption.
  intros B. cbn [QrisResponse.qr_image_base64].
  change (skipn 22 (lit "data:image/png;base64," ++ b64encode png))
    with (b64encode png).
  apply b64decode_b64encode. exact B.
Qed.

(** X19.  The [qr_image_base64] of a returned response is plain ASCII,
    starts with "data:image/png;base64,", and is 22 + 4 * ceil(n / 3)
    characters long for a PNG of [n] bytes. *)
Theorem qr_image_base64_shape :
  forall app payload h resp h',
    create_qris app payload h = (Return resp, h') ->
    isascii (QrisResponse.qr_image_base64 resp) = true
    /\ firstn 22 (QrisResponse.qr_image_base64 resp)
       = lit "data:image/png;base64,"
    /\ exists items img png,
        generate_qr_answer (qris_processor app) h
          (CreateQrisRequest.amount payload) = Return (PDict items)
        /\ field items "qr_image" = PImage img
        /\ save_PNG img = Return png
        /\ List.length (QrisResponse.qr_image_base64 resp)
           = (22 + 4 * ((List.length png + 2) / 3))%nat.
Proof.
  intros app payload h resp h' Run.
  apply create_qris_Return_inv in Run.
  destruct Run as (items & img & png & A & F & S & -> & _).
  cbn [QrisResponse.qr_image_base64]. split; [|split].
  - unfold isascii. rewrite forallb_app. apply andb_true_iff. split.
    + reflexivity.
    + apply b64encode_isascii.
  - reflexivity.
  - exists items, img, png. repeat split; try assumption.
    rewrite length_app, b64encode_length. reflexivity.
Qed.

(** ** The further properties at concrete requests *)

Lemma gate_accepts_exactly_the_secret_witness :
  path_in (lit "/check-payment") protected_paths = true
  /\ ~ carries_the_secret
         (sample_app (Some (lit "s3cret")) (Return image_result)
                     (Return paid_result))
         (post "/check-payment" (with_key (lit "S3CRET")))
  /\ exists e,
       secure_internal_api
         (sample_app (Some (lit "s3cret")) (Return image_result)
                     (Return paid_result))
         (post "/check-payment" (with_key (lit "S3CRET")))
         (fun _ => check_payment_status
                     (sample_app (Some (lit "s3cret")) (Return image_result)
                                 (Return paid_result))
                     check_1)
         []
       = (Raise e, [])
       /\ (e = Forbidden \/ exists msg, e = TypeError msg).
Proof.
  assert (N : ~ carries_the_secret
                  (sample_app (Some (lit "s3cret")) (Return image_result)
                              (Return paid_result))
                  (post "/check-payment" (with_key (lit "S3CRET")))).
  { intros (k & H & S & _). cbv in H, S. congruence. }
  split; [reflexivity|]. split; [exact N|].
  apply (proj2 (gate_accepts_exactly_the_secret _
                  (sample_app (Some (lit "s3cret")) (Return image_result)
                              (Return paid_result))
                  (post "/check-payment" (with_key (lit "S3CRET")))
                  _ [] eq_refl)).
  exact N.
Defined.

Lemma gate_ignores_method_witness :
  (secure_internal_api
     (sample_app (Some (lit "s3cret")) (Return image_result)
                 (Return paid_result))
     (post "/create-qris" []) (fun _ => root) []
   = root []
   /\ secure_internal_api
        (sample_app (Some (lit "s3cret")) (Return image_result)
                    (Return paid_result))
        (options "/create-qris" [(lit "origin", lit "https://shop.example")])
        (fun _ => root) []
      = root [])
  \/ (exists e,
        secure_internal_api
          (sample_app (Some (lit "s3cret")) (Return image_result)
                      (Return paid_result))
          (post "/create-qris" []) (fun _ => root) []
        = (Raise e, [])
        /\ secure_internal_api
             (sample_app (Some (lit "s3cret")) (Return image_result)
                         (Return paid_result))
             (options "/create-qris"
                      [(lit "origin", lit "https://shop.example")])
             (fun _ => root) []
           = (Raise e, [])).
Proof.
  apply (gate_ignores_method_and_other_headers _
           (sample_app (Some (lit "s3cret")) (Return image_result)
                       (Return paid_result))
           (post "/create-qris" [])
           (options "/create-qris"
                    [(lit "origin", lit "https://shop.example")])
           (fun _ => root) []);
    reflexivity.
Defined.

Lemma unusable_secret_locks_out_witness :
  exists e,
    secure_internal_api
      (sample_app (Some []) (Return image_result) (Return paid_result))
      (post "/create-qris" (with_key (lit "anything")))
      (fun _ => create_qris
                  (sample_app (Some []) (Return image_result)
                              (Return paid_result))
                  order_1)
      []
    = (Raise e, [])
    /\ (e = Forbidden \/ exists msg, e = TypeError msg).
Proof.
  apply (unusable_secret_locks_out _
           (sample_app (Some []) (Return image_result) (Return paid_result))
           (post "/create-qris" (with_key (lit "anything"))) _ [] []).
  - reflexivity.
  - left. reflexivity.
  - reflexivity.
Defined.

Lemma create_qris_raises_only_500_witness :
  (exists text,
      HTTPException 500
        (lit "Error saat generate QR: " ++ lit "upstream timed out")
      = HTTPException 500 (lit "Error saat generate QR: " ++ text))
  \/ is_Exception
       (HTTPException 500
          (lit "Error saat generate QR: " ++ lit "upstream timed out"))
     = false.
Proof.
  apply (create_qris_raises_only_500
           (sample_app (Some (lit "s3cret")) (Raise timeout_error)
                       (Return paid_result))
           order_1 [] _ [GenerateQr 10000]).
  reflexivity.
Defined.

Lemma check_payment_status_raises_only_500_witness :
  (exists text,
      HTTPException 500
        (lit "Error saat memeriksa pembayaran: " ++ lit "upstream timed out")
      = HTTPException 500
          (lit "Error saat memeriksa pembayaran: " ++ text))
  \/ is_Exception
       (HTTPException 500
          (lit "Error saat memeriksa pembayaran: "
             ++ lit "upstream timed out"))
     = false.
Proof.
  apply (check_payment_status_raises_only_500
           (sample_app (Some (lit "s3cret")) (Return image_result)
                       (Raise timeout_error))
           check_1 [] _ [CheckPayment (lit "ORD-1") 10000]).
  reflexivity.
Defined.

Lemma non_Exception_passes_through_witness :
  is_Exception keyboard_interrupt = false
  /\ create_qris
       (sample_app (Some (lit "s3cret")) (Raise keyboard_interrupt)
                   (Raise keyboard_interrupt))
       order_1 []
     = (Raise keyboard_interrupt, [] ++ [GenerateQr 10000]).
Proof.
  split; [reflexivity|].
  apply (proj1 (non_Exception_passes_through
                  (sample_app (Some (lit "s3cret")) (Raise keyboard_interrupt)
                              (Raise keyboard_interrupt))
                  [] keyboard_interrupt eq_refl)
           order_1).
  reflexivity.
Defined.

Lemma create_qris_save_failure_witness :
  create_qris
    (sample_app (Some (lit "s3cret"))
                (Return (PDict [(lit "qr_image", PImage broken_image)]))
                (Return paid_result))
    order_1 []
  = (Raise (HTTPException 500
              (lit "Error saat generate QR: " ++ lit "encoder error -2")),
     [] ++ [GenerateQr 10000]).
Proof.
  apply (create_qris_save_failure_is_500
           (sample_app (Some (lit "s3cret"))
                       (Return (PDict [(lit "qr_image", PImage broken_image)]))
                       (Return paid_result))
           order_1 [] [(lit "qr_image", PImage broken_image)] broken_image
           (PyExc {| exc_type := lit "OSError"; derives_Exception := true;
                     exc_message := lit "encoder error -2" |}));
    reflexivity.
Defined.

Lemma create_qris_non_image_witness :
  create_qris
    (sample_app (Some (lit "s3cret"))
                (Return (PDict [(lit "qr_image", PStr (lit "iVBORw=="))]))
                (Return paid_result))
    order_1 []
  = (Raise (HTTPException 500
              (lit "Error saat generate QR: 'str' object has no attribute 'save'")),
     [] ++ [GenerateQr 10000]).
Proof.
  apply (create_qris_non_image_is_500
           (sample_app (Some (lit "s3cret"))
                       (Return (PDict [(lit "qr_image",
                                        PStr (lit "iVBORw=="))]))
                       (Return paid_result))
           order_1 [] [(lit "qr_image", PStr (lit "iVBORw=="))]
           (PStr (lit "iVBORw=="))).
  - reflexivity.
  - reflexivity.
  - reflexivity.
  - discriminate.
Defined.


Lemma falsy_success_witness :
  check_payment_status
    (sample_app (Some (lit "s3cret")) (Return image_result)
                (Return (PDict [(lit "success", PBool false);
                                (lit "data", PNone)])))
    check_1 []
  = (Return {| StatusResponse.status := lit "PENDING" |},
     [] ++ [CheckPayment (lit "ORD-1") 10000]).
Proof.
  apply (falsy_success_is_PENDING
           (sample_app (Some (lit "s3cret")) (Return image_result)
                       (Return (PDict [(lit "success", PBool false);
                                       (lit "data", PNone)])))
           check_1 [] [(lit "success", PBool false); (lit "data", PNone)]);
    reflexivity.
Defined.



Lemma qr_image_base64_decodes_witness :
  exists items img png,
    Return image_result = Return (PDict items)
    /\ field items "qr_image" = PImage img
    /\ save_PNG img = Return png
    /\ (is_bytes png ->
        b64decode (skipn 22 (lit "data:image/png;base64,iVBORw=="))
        = Some png).
Proof.
  apply (qr_image_base64_decodes_to_the_png
           (sample_app (Some (lit "s3cret")) (Return image_result)
                       (Return paid_result))
           order_1 []
           {| QrisResponse.order_ref := lit "ORD-1";
              QrisResponse.amount := 10000;
              QrisResponse.qr_image_base64 :=
                lit "data:image/png;base64,iVBORw==" |}
           [GenerateQr 10000]).
  reflexivity.
Defined.

Lemma qr_image_base64_shape_witness :
  isascii (lit "data:image/png;base64,iVBORw==") = true
  /\ firstn 22 (lit "data:image/png;base64,iVBORw==")
     = lit "data:image/png;base64,"
  /\ exists items img png,
      Return image_result = Return (PDict items)
      /\ field items "qr_image" = PImage img
      /\ save_PNG img = Return png
      /\ List.length (lit "data:image/png;base64,iVBORw==")
         = (22 + 4 * ((List.length png + 2) / 3))%nat.
Proof.
  apply (qr_image_base64_shape
           (sample_app (Some (lit "s3cret")) (Return image_result)
                       (Return paid_result))
           order_1 []
           {| QrisResponse.order_ref := lit "ORD-1";
              QrisResponse.amount := 10000;
              QrisResponse.qr_image_base64 :=
                lit "data:image/png;base64,iVBORw==" |}
           [GenerateQr 10000]).
  reflexivity.
Defined.

(** The decoder on the padded forms. *)
Example b64decode_samples :
  b64decode (lit "Zg==") = Some (lit "f")
  /\ b64decode (lit "Zm8=") = Some (lit "fo")
  /\ b64decode (lit "Zm9vYmFy") = Some (lit "foobar")
  /\ b64decode (lit "Zg==Zg==") = None
  /\ b64decode (lit "Zm9") = None
  /\ b64decode (lit "Zm9*") = None.
Proof. repeat split. Qed.
